(** * text2voice: the token cache, the two synthesis adapters and the routes
    of [app.py], embedded in Rocq.

    The Python module keeps one [TextToSpeechAPI] object for the whole
    process and talks to the outside through [datetime.now()] and the
    [requests] library.  The embedding threads a system state (the object's
    two fields plus a description of the outside world) through a small
    state-and-exception monad; every route becomes a computation in it. *)

From Stdlib Require Import ZArith String Ascii List Bool Lia DecimalString.
From Stdlib.Strings Require Import Byte.
From stdpp Require Import base option gmap strings.
Import ListNotations.

Local Open Scope string_scope.
Local Open Scope Z_scope.

(** ** Python values used by the module *)

(** Python's [str] is modelled by [string]; one [ascii] stands for one
    character, so [String.length] is Python's [len]. *)

Definition truthy (s : string) : bool :=
  match s with EmptyString => false | String _ _ => true end.

(** [os.getenv] gives [None] or a string; [not AZURE_SPEECH_KEY] is true on
    both [None] and the empty string. *)
Definition truthy_opt (o : option string) : bool :=
  match o with None => false | Some s => truthy s end.

(** [str(n)] for a Python [int]. *)
Definition str_int (n : Z) : string := NilZero.string_of_int (Z.to_int n).

Definition nl : string := String (ascii_of_nat 10) EmptyString.

(** What [jsonify] is given and what [response.json()] yields. *)
#[warnings="-register-all"]
Inductive json : Type :=
| JNull
| JBool (b : bool)
| JNum (n : Z)
| JFloat (literal : string)   (* a number with a fraction or an exponent *)
| JStr (s : string)
| JArr (items : list json)
| JObj (fields : list (string * json)).

(** A Python dict with string keys, in insertion order. *)
Definition json_object : Type := list (string * json).

Fixpoint dict_get (k : string) (d : json_object) : option json :=
  match d with
  | [] => None
  | (k', v) :: d' => if String.eqb k k' then Some v else dict_get k d'
  end.

(** ** Exceptions *)

Inductive exn : Type :=
| Exception (msg : string)          (* [raise Exception(msg)] in app.py *)
| RequestException (msg : string)   (* raised inside [requests] *)
| JSONDecodeError (msg : string)    (* raised by [response.json()] *)
| KeyError (key : string)           (* [d[key]] on a missing key *)
| AttributeError (msg : string)     (* [x.startswith] on a non-string *)
| TypeError (msg : string).         (* iterating or indexing the wrong type *)

(** [str(e)]. *)
Definition str_exn (e : exn) : string :=
  match e with
  | Exception m | RequestException m | JSONDecodeError m | AttributeError m
  | TypeError m => m
  | KeyError k => "'" ++ k ++ "'"
  end.

(** ** Configuration, read once from the environment (lines 13-17) *)

Record config : Type := Config {
  AZURE_SPEECH_KEY : option string;
  AZURE_REGION : string;
  USE_FREE_TTS : bool
}.

(** ** The outside world *)

Definition headers : Type := list (string * string).

Inductive http_request : Type :=
| POST (url : string) (hdrs : headers) (data : option string)
| GET (url : string) (params : list (string * string)) (hdrs : headers).

(** [response.json()]: the body does not parse and the call raises with
    message [msg], or it parses to a JSON value, whatever that value is. *)
Inductive json_result : Type :=
| JsonFails (msg : string)
| JsonValue (j : json).

Record http_reply : Type := Reply {
  status_code : Z;
  text : string;              (* [response.text] *)
  content : list byte;        (* [response.content] *)
  json_body : json_result     (* [response.json()] *)
}.

Inductive net_outcome : Type :=
| Answered (r : http_reply)
| Failed (msg : string).      (* [requests] raised; [msg] is [str] of it *)

(** Instants are microseconds on the integer line; [datetime.now()] is the
    next reading of [clock].  [upstream k r] is what the [k]-th call of
    [requests] gets when it sends [r]; [sent] lists the calls made so far. *)
Record world : Type := World {
  clock : nat -> Z;
  reads : nat;
  upstream : nat -> http_request -> net_outcome;
  sent : list http_request
}.

(** ** [class TextToSpeechAPI] (lines 19-22) *)

Record TextToSpeechAPI : Type := Api {
  azure_token : option string;
  token_expiry : option Z
}.

(** [TextToSpeechAPI.__init__] *)
Definition init : TextToSpeechAPI :=
  {| azure_token := None; token_expiry := None |}.

Record sys : Type := Sys {
  tts_api : TextToSpeechAPI;
  env : world
}.

(** ** The monad: state plus Python exceptions *)

Inductive outcome (A : Type) : Type :=
| Return (a : A)
| Raise (e : exn).
Arguments Return {A} a.
Arguments Raise {A} e.

Definition M (A : Type) : Type := sys -> outcome A * sys.

Definition ret {A} (a : A) : M A := fun s => (Return a, s).

Definition raise {A} (e : exn) : M A := fun s => (Raise e, s).

Definition bind {A B} (m : M A) (k : A -> M B) : M B :=
  fun s =>
    match m s with
    | (Return a, s') => k a s'
    | (Raise e, s') => (Raise e, s')
    end.

(** [try: m except Exception as e: h e].  What [m] did to the state before
    raising stays done. *)
Definition try_except {A} (m : M A) (h : exn -> M A) : M A :=
  fun s =>
    match m s with
    | (Return a, s') => (Return a, s')
    | (Raise e, s') => h e s'
    end.

Notation "x <- m ;; k" := (bind m (fun x => k))
  (at level 100, m at next level, right associativity).

(** [datetime.now()] *)
Definition datetime_now : M Z :=
  fun s =>
    let w := env s in
    (Return (clock w (reads w)),
     {| tts_api := tts_api s;
        env := {| clock := clock w; reads := S (reads w);
                  upstream := upstream w; sent := sent w |} |}).

(** [requests.post] / [requests.get]: one call, logged whether or not the
    transport delivers an answer. *)
Definition requests_call (r : http_request) : M http_reply :=
  fun s =>
    let w := env s in
    let s' := {| tts_api := tts_api s;
                 env := {| clock := clock w; reads := reads w;
                           upstream := upstream w; sent := sent w ++ [r] |} |} in
    match upstream w (length (sent w)) r with
    | Answered rp => (Return rp, s')
    | Failed msg => (Raise (RequestException msg), s')
    end.

Definition get_self : M TextToSpeechAPI := fun s => (Return (tts_api s), s).

(** [self.azure_token = tok; self.token_expiry = exp] are two assignments in
    the source; no other code of the process runs between them here. *)
Definition set_azure_token (tok : string) : M unit :=
  fun s => (Return tt,
            {| tts_api := {| azure_token := Some tok;
                             token_expiry := token_expiry (tts_api s) |};
               env := env s |}).

Definition set_token_expiry (exp : Z) : M unit :=
  fun s => (Return tt,
            {| tts_api := {| azure_token := azure_token (tts_api s);
                             token_expiry := Some exp |};
               env := env s |}).

(** [timedelta(minutes=n)] *)
Definition timedelta_minutes (n : Z) : Z := n * 60 * 1000000.

(** ** [TextToSpeechAPI.get_azure_token] (lines 24-45) *)

Definition issue_token_url (cfg : config) : string :=
  "https://" ++ AZURE_REGION cfg ++ ".api.cognitive.microsoft.com/sts/v1.0/issueToken".

Definition issue_token_request (cfg : config) (key : string) : http_request :=
  POST (issue_token_url cfg)
       [("Ocp-Apim-Subscription-Key", key);
        ("Content-Type", "application/x-www-form-urlencoded")]
       None.

(** The guard of line 29.  Python's [and] stops at the first falsy operand,
    so the clock is read only when both fields are set and the token is a
    non-empty string; a [datetime] is always truthy. *)
Definition token_is_fresh (self : TextToSpeechAPI) : M bool :=
  match azure_token self, token_expiry self with
  | Some tok, Some exp =>
      if truthy tok then (now <- datetime_now ;; ret (now <? exp)) else ret false
  | _, _ => ret false
  end.

Definition get_azure_token (cfg : config) : M string :=
  match AZURE_SPEECH_KEY cfg with
  | None => raise (Exception "Azure Speech Key not configured")
  | Some key =>
      if negb (truthy key) then raise (Exception "Azure Speech Key not configured")
      else
        self <- get_self ;;
        fresh <- token_is_fresh self ;;
        match fresh, azure_token self with
        | true, Some tok => ret tok
        | _, _ =>
            response <- requests_call (issue_token_request cfg key) ;;
            if status_code response =? 200 then
              _ <- set_azure_token (text response) ;;
              now <- datetime_now ;;
              _ <- set_token_expiry (now + timedelta_minutes 9) ;;
              ret (text response)
            else
              raise (Exception ("Failed to get Azure token: "
                                ++ str_int (status_code response)))
        end
  end.

(** ** [TextToSpeechAPI.synthesize_speech_azure] (lines 47-75) *)

Definition tts_url (cfg : config) : string :=
  "https://" ++ AZURE_REGION cfg ++ ".tts.speech.microsoft.com/cognitiveservices/v1".

(** The f-string of lines 53-59, indentation included. *)
Definition ssml (voice text : string) : string :=
  nl ++ "            <speak version='1.0' xml:lang='en-US'>"
  ++ nl ++ "                <voice xml:lang='en-US' xml:gender='Female' name='"
  ++ voice ++ "'>"
  ++ nl ++ "                    " ++ text
  ++ nl ++ "                </voice>"
  ++ nl ++ "            </speak>"
  ++ nl ++ "            ".

Definition tts_request (cfg : config) (token voice text : string) : http_request :=
  POST (tts_url cfg)
       [("Authorization", "Bearer " ++ token);
        ("Content-Type", "application/ssml+xml");
        ("X-Microsoft-OutputFormat", "audio-16khz-128kbitrate-mono-mp3");
        ("User-Agent", "TextToSpeechAPI")]
       (Some (ssml voice text)).

Definition default_voice : string := "en-US-JennyNeural".

Definition synthesize_speech_azure (cfg : config) (text voice : string)
  : M (list byte) :=
  try_except
    (token <- get_azure_token cfg ;;
     response <- requests_call (tts_request cfg token voice text) ;;
     if status_code response =? 200 then ret (content response)
     else raise (Exception ("Azure API error: " ++ str_int (status_code response))))
    (fun e => raise (Exception ("Azure synthesis failed: " ++ str_exn e))).

(** ** [TextToSpeechAPI.synthesize_speech_free] (lines 77-100) *)

Definition free_tts_url : string := "https://translate.google.com/translate_tts".

Definition free_tts_request (text : string) : http_request :=
  GET free_tts_url
      [("ie", "UTF-8"); ("q", text); ("tl", "en"); ("client", "tw-ob")]
      [("User-Agent", "Mozilla/5.0 (Windows NT 10.0; Win64; x64) AppleWebKit/537.36")].

Definition synthesize_speech_free (text : string) : M (list byte) :=
  try_except
    (response <- requests_call (free_tts_request text) ;;
     if status_code response =? 200 then ret (content response)
     else raise (Exception ("Free TTS error: " ++ str_int (status_code response))))
    (fun e => raise (Exception ("Free TTS failed: " ++ str_exn e))).

(** ** [base64.b64encode] and its inverse

    The module calls Python's standard library here; the two functions
    below follow RFC 4648, section 4: three octets become four digits of
    the alphabet, a short last group is padded with [=]. *)

Definition byte_of_N (n : N) : byte :=
  match Byte.of_N n with Some b => b | None => x00 end.

Definition b64_alphabet : list byte :=
  list_byte_of_string
    "ABCDEFGHIJKLMNOPQRSTUVWXYZabcdefghijklmnopqrstuvwxyz0123456789+/".

Definition b64_pad : byte := x3d.

Definition b64_digit (n : N) : byte := nth (N.to_nat n) b64_alphabet b64_pad.

Fixpoint b64_index (c : byte) (alphabet : list byte) (i : N) : option N :=
  match alphabet with
  | [] => None
  | d :: rest => if Byte.eqb c d then Some i else b64_index c rest (N.succ i)
  end.

Definition b64_value (c : byte) : option N := b64_index c b64_alphabet 0%N.

Definition sextet1 (a : byte) : N := N.shiftr (Byte.to_N a) 2.
Definition sextet2 (a b : byte) : N :=
  N.lor (N.shiftl (N.land (Byte.to_N a) 3) 4) (N.shiftr (Byte.to_N b) 4).
Definition sextet3 (b c : byte) : N :=
  N.lor (N.shiftl (N.land (Byte.to_N b) 15) 2) (N.shiftr (Byte.to_N c) 6).
Definition sextet4 (c : byte) : N := N.land (Byte.to_N c) 63.

Fixpoint b64encode (s : list byte) : list byte :=
  match s with
  | [] => []
  | [a] =>
      [b64_digit (sextet1 a); b64_digit (sextet2 a x00); b64_pad; b64_pad]
  | [a; b] =>
      [b64_digit (sextet1 a); b64_digit (sextet2 a b);
       b64_digit (sextet3 b x00); b64_pad]
  | a :: b :: c :: rest =>
      b64_digit (sextet1 a) :: b64_digit (sextet2 a b)
      :: b64_digit (sextet3 b c) :: b64_digit (sextet4 c) :: b64encode rest
  end.

Definition octet1 (v1 v2 : N) : byte :=
  byte_of_N (N.land (N.lor (N.shiftl v1 2) (N.shiftr v2 4)) 255).
Definition octet2 (v2 v3 : N) : byte :=
  byte_of_N (N.land (N.lor (N.shiftl v2 4) (N.shiftr v3 2)) 255).
Definition octet3 (v3 v4 : N) : byte :=
  byte_of_N (N.land (N.lor (N.shiftl v3 6) v4) 255).

(** The last four digits of an encoding, padding allowed. *)
Definition b64decode_last (c1 c2 c3 c4 : byte) : option (list byte) :=
  match b64_value c1, b64_value c2 with
  | Some v1, Some v2 =>
      if Byte.eqb c4 b64_pad then
        if Byte.eqb c3 b64_pad then Some [octet1 v1 v2]
        else match b64_value c3 with
             | Some v3 => Some [octet1 v1 v2; octet2 v2 v3]
             | None => None
             end
      else match b64_value c3, b64_value c4 with
           | Some v3, Some v4 => Some [octet1 v1 v2; octet2 v2 v3; octet3 v3 v4]
           | _, _ => None
           end
  | _, _ => None
  end.

Fixpoint b64decode (s : list byte) : option (list byte) :=
  match s with
  | [] => Some []
  | c1 :: c2 :: c3 :: c4 :: rest =>
      match rest with
      | [] => b64decode_last c1 c2 c3 c4
      | _ :: _ =>
          match b64_value c1, b64_value c2, b64_value c3, b64_value c4,
                b64decode rest with
          | Some v1, Some v2, Some v3, Some v4, Some tail =>
              Some (octet1 v1 v2 :: octet2 v2 v3 :: octet3 v3 v4 :: tail)
          | _, _, _, _, _ => None
          end
      end
  | _ => None
  end.

(** ** The routes *)

Inductive payload : Type :=
| JsonBody (j : json)                                    (* [jsonify(j)] *)
| FileBody (data : list byte) (mimetype download_name : string). (* [send_file] *)

Record http_response : Type := Response {
  body : payload;
  status : Z
}.

Definition jsonify (j : json) : http_response := {| body := JsonBody j; status := 200 |}.

Definition json_error (msg : string) (code : Z) : http_response :=
  {| body := JsonBody (JObj [("error", JStr msg)]); status := code |}.

(** [GET /speech] (lines 117-144); [args] is [request.args]. *)
Definition text_to_speech (cfg : config) (args : gmap string string)
  : M http_response :=
  let text := default "" (args !! "text") in
  if negb (truthy text) then
    ret (json_error "No text provided. Use ?text=Your+message" 400)
  else if (1000 <? String.length text)%nat then
    ret (json_error "Text too long. Maximum 1000 characters." 400)
  else
    try_except
      (audio_data <-
         (if USE_FREE_TTS cfg || negb (truthy_opt (AZURE_SPEECH_KEY cfg))
          then synthesize_speech_free text
          else synthesize_speech_azure cfg text default_voice) ;;
       ret {| body := FileBody audio_data "audio/mpeg" "speech.mp3";
              status := 200 |})
      (fun e => ret (json_error (str_exn e) 500)).

(** [POST /speech] (lines 146-175); [data] is what [request.get_json()]
    returned: a JSON object whose fields are strings, or [None] (the body
    [null]).  Bodies of another shape, and requests on which [get_json]
    itself raises, have no counterpart here. *)
Definition text_to_speech_post (cfg : config) (data : option (gmap string string))
  : M http_response :=
  match data with
  | None => ret (json_error "No text provided in JSON body" 400)
  | Some d =>
      if bool_decide (d = ∅) then
        ret (json_error "No text provided in JSON body" 400)
      else
        match d !! "text" with
        | None => ret (json_error "No text provided in JSON body" 400)
        | Some text =>
            let voice := default "en-US-JennyNeural" (d !! "voice") in
            try_except
              (audio_data <-
                 (if USE_FREE_TTS cfg || negb (truthy_opt (AZURE_SPEECH_KEY cfg))
                  then synthesize_speech_free text
                  else synthesize_speech_azure cfg text voice) ;;
               let audio_base64 := string_of_list_byte (b64encode audio_data) in
               ret (jsonify (JObj
                      [("status", JStr "success");
                       ("text", JStr text);
                       ("audio_format", JStr "mp3");
                       ("audio_data", JStr audio_base64);
                       ("voice", JStr (if negb (USE_FREE_TTS cfg) then voice
                                       else "free-tts"))])))
              (fun e => ret (json_error (str_exn e) 500))
        end
  end.

(** [GET /voices] (lines 177-204) *)

Definition voices_url (cfg : config) : string :=
  "https://" ++ AZURE_REGION cfg ++ ".tts.speech.microsoft.com/cognitiveservices/voices/list".

Definition voices_request (cfg : config) (token : string) : http_request :=
  GET (voices_url cfg) [] [("Authorization", "Bearer " ++ token)].

(** [type(x).__name__] *)
Definition type_name (j : json) : string :=
  match j with
  | JNull => "NoneType"
  | JBool _ => "bool"
  | JNum _ => "int"
  | JFloat _ => "float"
  | JStr _ => "str"
  | JArr _ => "list"
  | JObj _ => "dict"
  end.

(** [v['Locale']].  Only a dict can be indexed by a string: a missing key
    is a [KeyError], any other type a [TypeError] (messages as CPython 3.11
    and later word them). *)
Definition getitem_Locale (v : json) : exn + json :=
  match v with
  | JObj fields =>
      match dict_get "Locale" fields with
      | Some j => inr j
      | None => inl (KeyError "Locale")
      end
  | JArr _ => inl (TypeError "list indices must be integers or slices, not str")
  | JStr _ => inl (TypeError "string indices must be integers, not 'str'")
  | _ => inl (TypeError ("'" ++ type_name v ++ "' object is not subscriptable"))
  end.

(** [v['Locale'].startswith('en-')] *)
Definition locale_is_english (v : json) : exn + bool :=
  match getitem_Locale v with
  | inl e => inl e
  | inr (JStr locale) => inr (String.prefix "en-" locale)
  | inr j =>
      inl (AttributeError
             ("'" ++ type_name j ++ "' object has no attribute 'startswith'"))
  end.

(** [iter(voices)]: a list gives its items, a dict its keys, a string its
    characters; nothing else can be iterated. *)
Definition iterate (voices : json) : exn + list json :=
  match voices with
  | JArr items => inr items
  | JObj fields => inr (map (fun kv => JStr (fst kv)) fields)
  | JStr s => inr (map (fun c => JStr (String c EmptyString)) (list_ascii_of_string s))
  | _ => inl (TypeError ("'" ++ type_name voices ++ "' object is not iterable"))
  end.

(** The body of the comprehension of line 198 over the items: they are
    visited in order and the first one that raises ends it. *)
Fixpoint english_voices (items : list json) : exn + list json :=
  match items with
  | [] => inr []
  | v :: rest =>
      match locale_is_english v with
      | inl e => inl e
      | inr keep =>
          match english_voices rest with
          | inl e => inl e
          | inr tail => inr (if keep then v :: tail else tail)
          end
      end
  end.

(** [[v for v in voices if v['Locale'].startswith('en-')]] *)
Definition comprehension (voices : json) : exn + list json :=
  match iterate voices with
  | inl e => inl e
  | inr items => english_voices items
  end.

Definition lift_result {A} (r : exn + A) : M A :=
  match r with inl e => raise e | inr a => ret a end.

(** [response.json()] *)
Definition response_json (response : http_reply) : M json :=
  match json_body response with
  | JsonFails msg => raise (JSONDecodeError msg)
  | JsonValue voices => ret voices
  end.

Definition free_voices_notice : json :=
  JObj [("message", JStr "Using free TTS service - voice selection not available");
        ("default_voice", JStr "free-tts")].

Definition get_available_voices (cfg : config) : M http_response :=
  if USE_FREE_TTS cfg || negb (truthy_opt (AZURE_SPEECH_KEY cfg)) then
    ret (jsonify free_voices_notice)
  else
    try_except
      (token <- get_azure_token cfg ;;
       response <- requests_call (voices_request cfg token) ;;
       if status_code response =? 200 then
         voices <- response_json response ;;
         english <- lift_result (comprehension voices) ;;
         ret (jsonify (JArr (firstn 10 english)))
       else
         ret (json_error "Failed to fetch voices" 500))
      (fun e => ret (json_error (str_exn e) 500)).

(** [GET /health] (lines 206-212) *)
Definition health_check (cfg : config) : http_response :=
  jsonify (JObj
    [("status", JStr "healthy");
     ("service", JStr "Text-to-Speech API");
     ("using_free_tts",
      JBool (USE_FREE_TTS cfg || negb (truthy_opt (AZURE_SPEECH_KEY cfg))))]).

(** [GET /] (lines 104-115) *)
Definition home : http_response :=
  jsonify (JObj
    [("message", JStr "Text-to-Speech API");
     ("endpoints", JObj
        [("GET /speech?text=hello", JStr "Generate speech from text");
         ("POST /speech", JStr "Generate speech with JSON body");
         ("GET /voices", JStr "List available voices");
         ("GET /health", JStr "Health check")]);
     ("usage", JStr "Visit /speech?text=Your+text+here to get audio")]).

(** ** Everything that can touch the [tts_api] object

    One constructor per method of the class and per route; a run of the
    process is a list of them, executed one after the other from the state
    [__init__] leaves. *)
Inductive operation : Type :=
| OpGetToken
| OpSynthesizeAzure (text voice : string)
| OpSynthesizeFree (text : string)
| OpHome
| OpGetSpeech (args : gmap string string)
| OpPostSpeech (data : option (gmap string string))
| OpVoices
| OpHealth.

Definition run_operation (cfg : config) (op : operation) (s : sys) : sys :=
  match op with
  | OpGetToken => snd (get_azure_token cfg s)
  | OpSynthesizeAzure text voice => snd (synthesize_speech_azure cfg text voice s)
  | OpSynthesizeFree text => snd (synthesize_speech_free text s)
  | OpHome => s
  | OpGetSpeech args => snd (text_to_speech cfg args s)
  | OpPostSpeech data => snd (text_to_speech_post cfg data s)
  | OpVoices => snd (get_available_voices cfg s)
  | OpHealth => s
  end.

Definition run (cfg : config) (ops : list operation) (s : sys) : sys :=
  fold_left (fun s op => run_operation cfg op s) ops s.

(** The state of the process when the module has been loaded (line 102). *)
Definition boot (w : world) : sys := {| tts_api := init; env := w |}.

(** The calls of [requests] that [m] makes when started in [s]. *)
Definition calls_made {A} (m : M A) (s : sys) : list http_request :=
  skipn (length (sent (env s))) (sent (env (snd (m s)))).

(** ** Observations used in the statements *)

(** The exception a computation ended with, if it did. *)
Definition raised {A} (o : outcome A) : option exn :=
  match o with
  | Return _ => None
  | Raise e => Some e
  end.

(** The field [name] of a response built by [jsonify] from a dict. *)
Definition response_field (name : string) (r : http_response) : option json :=
  match body r with
  | JsonBody (JObj fields) => dict_get name fields
  | _ => None
  end.

(** Credentials are configured when the key is set and not empty. *)
Definition credentials_configured (cfg : config) : bool :=
  truthy_opt (AZURE_SPEECH_KEY cfg).

(** The requests only the paid adapter sends, and the one request only the
    free adapter sends. *)
Definition primary_call (cfg : config) (r : http_request) : Prop :=
  (exists key, r = issue_token_request cfg key)
  \/ (exists token voice text, r = tts_request cfg token voice text).

Definition handled_by_primary (cfg : config) (calls : list http_request) : Prop :=
  calls <> [] /\ Forall (primary_call cfg) calls.

Definition handled_by_fallback (text : string) (calls : list http_request) : Prop :=
  calls = [free_tts_request text].

(** An entry whose [Locale] is a string starting with [en-]. *)
Definition has_english_locale (v : json_object) : bool :=
  match dict_get "Locale" v with
  | Some (JStr locale) => String.prefix "en-" locale
  | _ => false
  end.

Definition has_locale (v : json_object) : Prop :=
  exists locale, dict_get "Locale" v = Some (JStr locale).

(** ['a' * n] *)
Fixpoint letters (n : nat) : string :=
  match n with
  | O => EmptyString
  | S n' => String "a" (letters n')
  end.

(** ** Sample configurations and worlds, used to run the routes *)

Definition cfg_paid : config :=
  {| AZURE_SPEECH_KEY := Some "secret"; AZURE_REGION := "eastus";
     USE_FREE_TTS := false |}.

Definition cfg_no_key : config :=
  {| AZURE_SPEECH_KEY := None; AZURE_REGION := "eastus"; USE_FREE_TTS := false |}.

Definition cfg_forced_free : config :=
  {| AZURE_SPEECH_KEY := Some "secret"; AZURE_REGION := "eastus";
     USE_FREE_TTS := true |}.

Definition riff : list byte := list_byte_of_string "RIFF".

Definition voice_entry (name locale : string) : json_object :=
  [("ShortName", JStr name); ("Locale", JStr locale)].

(** Fifteen entries, twelve of them English. *)
Definition sample_catalog : list json_object :=
  [voice_entry "v01" "en-US"; voice_entry "v02" "de-DE"; voice_entry "v03" "en-GB";
   voice_entry "v04" "en-AU"; voice_entry "v05" "en-IN"; voice_entry "v06" "fr-FR";
   voice_entry "v07" "en-CA"; voice_entry "v08" "en-IE"; voice_entry "v09" "en-NZ";
   voice_entry "v10" "en-ZA"; voice_entry "v11" "en-US"; voice_entry "v12" "es-ES";
   voice_entry "v13" "en-GB"; voice_entry "v14" "en-SG"; voice_entry "v15" "en-KE"].

Definition reply_with (code : Z) : http_reply :=
  {| status_code := code; text := "token-1"; content := riff;
     json_body := JsonValue (JArr (map JObj sample_catalog)) |}.

(** The clock stands at [t] plus one microsecond per reading; every call is
    answered with status [code]. *)
Definition world_answering (code t : Z) : world :=
  {| clock := fun k => t + Z.of_nat k; reads := 0;
     upstream := fun _ _ => Answered (reply_with code); sent := [] |}.

(** A process that holds the token ["token-0"], valid until instant [exp]. *)
Definition holding_token (exp : Z) (w : world) : sys :=
  {| tts_api := {| azure_token := Some "token-0"; token_expiry := Some exp |};
     env := w |}.

(** A world in which the network is down: every call of [requests] raises. *)
Definition world_offline (t : Z) : world :=
  {| clock := fun k => t + Z.of_nat k; reads := 0;
     upstream := fun _ _ => Failed "connection refused"; sent := [] |}.

(** A catalog whose second entry has no [Locale], and a world that serves
    it. *)
Definition broken_catalog : list json_object :=
  [voice_entry "v01" "en-US"; [("ShortName", JStr "v02")]; voice_entry "v03" "en-GB"].

Definition world_with_broken_catalog : world :=
  {| clock := fun k => Z.of_nat k; reads := 0;
     upstream := fun _ _ =>
       Answered {| status_code := 200; text := "token-1"; content := riff;
                   json_body := JsonValue (JArr (map JObj broken_catalog)) |};
     sent := [] |}.

(** A world whose catalog is [[null]]. *)
Definition world_with_null_entry : world :=
  {| clock := fun k => Z.of_nat k; reads := 0;
     upstream := fun _ _ =>
       Answered {| status_code := 200; text := "token-1"; content := riff;
                   json_body := JsonValue (JArr [JNull]) |};
     sent := [] |}.

(** * Properties *)

(** ** Helpers on strings and on the monad *)

Lemma truthy_true (s : string) : truthy s = true <-> s <> "".
Proof. destruct s; simpl; split; intros; congruence. Qed.

Lemma truthy_false (s : string) : truthy s = false <-> s = "".
Proof. destruct s; simpl; split; intros; congruence. Qed.

Lemma calls_made_none {A} (m : M A) (s : sys) :
  sent (env (snd (m s))) = sent (env s) -> calls_made m s = [].
Proof. unfold calls_made. intros ->. apply drop_all. Qed.

Lemma calls_made_one {A} (m : M A) (s : sys) (r : http_request) :
  sent (env (snd (m s))) = (sent (env s) ++ [r])%list -> calls_made m s = [r].
Proof. unfold calls_made. intros ->. apply drop_app_length. Qed.

Ltac case_answer :=
  match goal with
  | |- context [match upstream ?w ?k ?r with _ => _ end] =>
      destruct (upstream w k r) as [?response|?msg]
  end.

Ltac case_status :=
  match goal with
  | |- context [if status_code ?r =? 200 then _ else _] =>
      destruct (status_code r =? 200)
  end.

Ltac run_monad :=
  unfold bind, ret, raise, try_except, get_self, datetime_now, requests_call,
    set_azure_token, set_token_expiry, lift_result, response_json in *;
  simpl in *.

(** The guard of line 29 never raises, makes no call and leaves the object
    alone; it is true exactly on a non-empty token with a later expiry. *)
Lemma token_is_fresh_spec (s : sys) :
  exists (b : bool) (s' : sys),
    token_is_fresh (tts_api s) s = (Return b, s')
    /\ tts_api s' = tts_api s
    /\ sent (env s') = sent (env s)
    /\ upstream (env s') = upstream (env s)
    /\ clock (env s') = clock (env s)
    /\ (b = true <->
        exists tok exp,
          azure_token (tts_api s) = Some tok /\ tok <> ""
          /\ token_expiry (tts_api s) = Some exp
          /\ clock (env s) (reads (env s)) < exp).
Proof.
  unfold token_is_fresh.
  destruct (azure_token (tts_api s)) as [tok|] eqn:Htok;
    destruct (token_expiry (tts_api s)) as [exp|] eqn:Hexp.
  - destruct (truthy tok) eqn:Ht.
    + run_monad. eexists _, _. repeat split; try reflexivity; simpl.
      * intros H%Z.ltb_lt. exists tok, exp.
        repeat split; try reflexivity; [ by apply truthy_true | done ].
      * intros (tok' & exp' & [= <-] & _ & [= <-] & Hlt). by apply Z.ltb_lt.
    + run_monad. eexists _, _. repeat split; try reflexivity; try discriminate.
      intros (tok' & exp' & [= <-] & Hne & _). apply truthy_false in Ht. done.
  - run_monad. eexists _, _. repeat split; try reflexivity; try discriminate.
    intros (tok' & exp' & _ & _ & [=] & _).
  - run_monad. eexists _, _. repeat split; try reflexivity; try discriminate.
    intros (tok' & exp' & [=] & _).
  - run_monad. eexists _, _. repeat split; try reflexivity; try discriminate.
    intros (tok' & exp' & [=] & _).
Qed.

(** ** The token cache *)

(** With a key configured, a fresh token is handed back as it is: the only
    effect is the one reading of the clock. *)
Lemma get_azure_token_hit (cfg : config) (s : sys) (key tok : string) (exp : Z) :
  AZURE_SPEECH_KEY cfg = Some key -> key <> "" ->
  azure_token (tts_api s) = Some tok -> tok <> "" ->
  token_expiry (tts_api s) = Some exp ->
  clock (env s) (reads (env s)) < exp ->
  get_azure_token cfg s = (Return tok, snd (datetime_now s)).
Proof.
  intros Hkey Hk Htok Ht Hexp Hlt.
  unfold get_azure_token. rewrite Hkey.
  apply truthy_true in Hk as ->. apply truthy_true in Ht.
  unfold token_is_fresh. run_monad. rewrite Htok, Hexp, Ht. simpl.
  apply Z.ltb_lt in Hlt as ->. reflexivity.
Qed.

(** With a key configured and no fresh token, exactly the issuance request
    is sent, and the outcome is decided by the answer to it. *)
Lemma get_azure_token_miss (cfg : config) (s s1 : sys) (key : string) :
  AZURE_SPEECH_KEY cfg = Some key -> key <> "" ->
  token_is_fresh (tts_api s) s = (Return false, s1) ->
  let req := issue_token_request cfg key in
  let w1 := env s1 in
  let w2 := {| clock := clock w1; reads := reads w1; upstream := upstream w1;
               sent := sent w1 ++ [req] |} in
  get_azure_token cfg s =
    match upstream w1 (length (sent w1)) req with
    | Failed msg =>
        (Raise (RequestException msg), {| tts_api := tts_api s1; env := w2 |})
    | Answered response =>
        if status_code response =? 200 then
          (Return (text response),
           {| tts_api := {| azure_token := Some (text response);
                            token_expiry :=
                              Some (clock w1 (reads w1) + timedelta_minutes 9) |};
              env := {| clock := clock w1; reads := S (reads w1);
                        upstream := upstream w1; sent := sent w1 ++ [req] |} |})
        else
          (Raise (Exception ("Failed to get Azure token: "
                             ++ str_int (status_code response))),
           {| tts_api := tts_api s1; env := w2 |})
    end.
Proof.
  intros Hkey Hk Hfresh. simpl.
  unfold get_azure_token. rewrite Hkey.
  apply truthy_true in Hk as ->. simpl.
  unfold bind at 1. unfold get_self. unfold bind at 1. rewrite Hfresh.
  run_monad.
  destruct (upstream (env s1) _ _) as [response|msg]; [|reflexivity].
  destruct (status_code response =? 200); reflexivity.
Qed.

(** What a call of [get_azure_token] can do to the object and to the log of
    calls: nothing at all, or one issuance request; and the object is either
    left as it was or gets both fields at once. *)
Lemma get_azure_token_effect (cfg : config) (s : sys) :
  let s' := snd (get_azure_token cfg s) in
  (sent (env s') = sent (env s)
   \/ exists key, AZURE_SPEECH_KEY cfg = Some key /\ key <> ""
        /\ sent (env s') = (sent (env s) ++ [issue_token_request cfg key])%list)
  /\ (tts_api s' = tts_api s
      \/ exists tok exp,
           fst (get_azure_token cfg s) = Return tok
           /\ tts_api s' = {| azure_token := Some tok; token_expiry := Some exp |}).
Proof.
  simpl.
  destruct (AZURE_SPEECH_KEY cfg) as [key|] eqn:Hkey.
  2:{ unfold get_azure_token. rewrite Hkey. simpl. auto. }
  destruct (truthy key) eqn:Hk.
  2:{ unfold get_azure_token. rewrite Hkey, Hk. simpl. auto. }
  apply truthy_true in Hk.
  destruct (token_is_fresh_spec s)
    as (b & s1 & Hfresh & Hapi & Hsent & Hup & Hclock & Hb).
  destruct b.
  - destruct Hb as [Hb _]. destruct (Hb eq_refl) as (tok & exp & Ht & Hne & He & Hlt).
    rewrite (get_azure_token_hit cfg s key tok exp) by assumption.
    simpl. auto.
  - rewrite (get_azure_token_miss cfg s s1 key) by assumption.
    destruct (upstream (env s1) _ _) as [response|msg]; simpl.
    + destruct (status_code response =? 200); simpl; rewrite Hsent.
      * split; [right; eauto | right; eauto].
      * split; [right; eauto | left; done].
    + rewrite Hsent. split; [right; eauto | left; done].
Qed.

(** C1, as amended: with a subscription key configured, a call of
    [get_azure_token] that finds a non-empty cached token and reads a time
    strictly before its expiry returns the cached token, makes no call of
    [requests] and leaves the object unchanged; a call that finds no token,
    or an expiry at or before the current time, makes exactly one call, the
    token-issuance request. *)
Theorem token_cache_contract (cfg : config) (s : sys) (key : string) :
  AZURE_SPEECH_KEY cfg = Some key -> key <> "" ->
  (forall tok exp,
      azure_token (tts_api s) = Some tok -> tok <> "" ->
      token_expiry (tts_api s) = Some exp ->
      clock (env s) (reads (env s)) < exp ->
      fst (get_azure_token cfg s) = Return tok
      /\ calls_made (get_azure_token cfg) s = []
      /\ tts_api (snd (get_azure_token cfg s)) = tts_api s)
  /\ (azure_token (tts_api s) = None
      \/ (exists exp, token_expiry (tts_api s) = Some exp
                      /\ exp <= clock (env s) (reads (env s))) ->
      calls_made (get_azure_token cfg) s = [issue_token_request cfg key]).
Proof.
  intros Hkey Hk. split.
  - intros tok exp Htok Hne Hexp Hlt.
    assert (Hrun := get_azure_token_hit cfg s key tok exp Hkey Hk Htok Hne Hexp Hlt).
    split; [by rewrite Hrun|]. split; [|by rewrite Hrun].
    apply calls_made_none. by rewrite Hrun.
  - intros Hstale.
    destruct (token_is_fresh_spec s)
      as (b & s1 & Hfresh & Hapi & Hsent & Hup & Hclock & Hb).
    destruct b.
    + destruct Hb as [Hb _]. destruct (Hb eq_refl) as (tok & exp & Ht & _ & He & Hlt).
      destruct Hstale as [Hnone | (exp' & He' & Hle)]; [congruence|].
      rewrite He in He'. injection He' as <-. lia.
    + apply calls_made_one.
      rewrite (get_azure_token_miss cfg s s1 key) by assumption.
      destruct (upstream (env s1) _ _) as [response|msg]; simpl.
      * destruct (status_code response =? 200); simpl; by rewrite Hsent.
      * by rewrite Hsent.
Qed.

(** C1, as stated, fails without a subscription key: no token is cached, yet
    the call raises before any request is made, so the number of issuance
    calls is zero and not one. *)
Lemma token_cache_no_key_no_call :
  azure_token (tts_api (boot (world_answering 200 0))) = None
  /\ fst (get_azure_token cfg_no_key (boot (world_answering 200 0)))
     = Raise (Exception "Azure Speech Key not configured")
  /\ calls_made (get_azure_token cfg_no_key) (boot (world_answering 200 0)) = []
  /\ length (calls_made (get_azure_token cfg_no_key) (boot (world_answering 200 0)))
     <> 1%nat.
Proof. repeat split; try reflexivity. discriminate. Qed.

(** The amended C1 at work: a token valid until 5000 is reused at time 1000
    without a call, and refetched with one call at time 5000. *)
Lemma token_cache_contract_witness :
  (fst (get_azure_token cfg_paid (holding_token 5000 (world_answering 200 1000)))
   = Return "token-0"
   /\ calls_made (get_azure_token cfg_paid)
        (holding_token 5000 (world_answering 200 1000)) = []
   /\ tts_api (snd (get_azure_token cfg_paid
                      (holding_token 5000 (world_answering 200 1000))))
      = tts_api (holding_token 5000 (world_answering 200 1000)))
  /\ calls_made (get_azure_token cfg_paid)
       (holding_token 5000 (world_answering 200 5000))
     = [issue_token_request cfg_paid "secret"].
Proof.
  split.
  - apply (proj1 (token_cache_contract cfg_paid
                    (holding_token 5000 (world_answering 200 1000)) "secret"
                    eq_refl ltac:(discriminate)) "token-0" 5000);
      simpl; first [ reflexivity | discriminate | lia ].
  - apply (proj2 (token_cache_contract cfg_paid
                    (holding_token 5000 (world_answering 200 5000)) "secret"
                    eq_refl ltac:(discriminate))).
    right. exists 5000. simpl. split; [reflexivity | lia].
Defined.

(** Line 29 tests the token for truth, not for [None]: a cached empty string
    (a 200 answer with an empty body) counts as no token, and the next call
    asks for a new one although the expiry lies ahead. *)
Example empty_token_is_refetched :
  calls_made (get_azure_token cfg_paid)
    {| tts_api := {| azure_token := Some ""; token_expiry := Some 5000 |};
       env := world_answering 200 1000 |}
  = [issue_token_request cfg_paid "secret"].
Proof. reflexivity. Qed.

(** C4: a renewal attempt is a call that finds a key and no fresh token.  When
    the issuance request is answered with status 200, the answer's text
    becomes the cached token, the expiry becomes the clock reading taken at
    that moment plus nine minutes, and the text is returned.  When it is
    answered with any other status, the call raises an exception whose
    message ends with that status, and the object is left as it was. *)
Theorem token_renewal_contract
    (cfg : config) (s s1 : sys) (key : string) (response : http_reply) :
  AZURE_SPEECH_KEY cfg = Some key -> key <> "" ->
  token_is_fresh (tts_api s) s = (Return false, s1) ->
  upstream (env s1) (length (sent (env s1))) (issue_token_request cfg key)
    = Answered response ->
  let s' := snd (get_azure_token cfg s) in
  (status_code response = 200 ->
     fst (get_azure_token cfg s) = Return (text response)
     /\ azure_token (tts_api s') = Some (text response)
     /\ token_expiry (tts_api s')
        = Some (clock (env s') (Nat.pred (reads (env s'))) + timedelta_minutes 9)
     /\ timedelta_minutes 9 = 9 * 60 * 1000000)
  /\ (status_code response <> 200 ->
     fst (get_azure_token cfg s)
       = Raise (Exception ("Failed to get Azure token: "
                           ++ str_int (status_code response)))
     /\ tts_api s' = tts_api s).
Proof.
  intros Hkey Hk Hfresh Hans. simpl.
  rewrite (get_azure_token_miss cfg s s1 key Hkey Hk Hfresh). rewrite Hans.
  destruct (token_is_fresh_spec s)
    as (b & s1' & Hfresh' & Hapi & _).
  rewrite Hfresh in Hfresh'. injection Hfresh' as _ <-.
  split.
  - intros ->. simpl. repeat split; reflexivity.
  - intros Hne. apply Z.eqb_neq in Hne as ->. simpl. by rewrite Hapi.
Qed.

(** C4 on a first call: status 200 stores ["token-1"] with expiry nine
    minutes after the reading 1000; status 401 raises and stores nothing. *)
Lemma token_renewal_contract_witness :
  (fst (get_azure_token cfg_paid (boot (world_answering 200 1000)))
   = Return "token-1"
   /\ tts_api (snd (get_azure_token cfg_paid (boot (world_answering 200 1000))))
      = {| azure_token := Some "token-1"; token_expiry := Some 540001000 |})
  /\ (fst (get_azure_token cfg_paid (boot (world_answering 401 1000)))
      = Raise (Exception "Failed to get Azure token: 401")
      /\ tts_api (snd (get_azure_token cfg_paid (boot (world_answering 401 1000))))
         = init).
Proof.
  split.
  - destruct (proj1 (token_renewal_contract cfg_paid
                       (boot (world_answering 200 1000))
                       (boot (world_answering 200 1000)) "secret" (reply_with 200)
                       eq_refl ltac:(discriminate) eq_refl eq_refl) eq_refl)
      as (Hret & Htok & Hexp & _).
    split; [exact Hret|].
    destruct (tts_api _) as [tok exp]. simpl in Htok, Hexp.
    rewrite Htok, Hexp. reflexivity.
  - destruct (proj2 (token_renewal_contract cfg_paid
                       (boot (world_answering 401 1000))
                       (boot (world_answering 401 1000)) "secret" (reply_with 401)
                       eq_refl ltac:(discriminate) eq_refl eq_refl)
                ltac:(discriminate))
      as (Hret & Hapi).
    split; [exact Hret | exact Hapi].
Defined.

(** ** The two fields of the object move together *)

Definition token_state_inv (a : TextToSpeechAPI) : Prop :=
  azure_token a = None <-> token_expiry a = None.

(** One step of the object: untouched, or both fields assigned. *)
Definition sets_both_or_nothing (a a' : TextToSpeechAPI) : Prop :=
  a' = a
  \/ exists tok exp, a' = {| azure_token := Some tok; token_expiry := Some exp |}.

Definition api_effect {A} (m : M A) : Prop :=
  forall s, sets_both_or_nothing (tts_api s) (tts_api (snd (m s))).

Lemma sets_both_or_nothing_trans (a b c : TextToSpeechAPI) :
  sets_both_or_nothing a b -> sets_both_or_nothing b c -> sets_both_or_nothing a c.
Proof.
  intros Hab [-> | (tok & exp & ->)]; [exact Hab|].
  right. eauto.
Qed.

Lemma sets_both_or_nothing_inv (a a' : TextToSpeechAPI) :
  token_state_inv a -> sets_both_or_nothing a a' -> token_state_inv a'.
Proof.
  intros Ha [-> | (tok & exp & ->)]; [exact Ha|].
  unfold token_state_inv. simpl. split; discriminate.
Qed.

Section ApiEffect.
Context {A B : Type}.

Lemma api_effect_ret (a : A) : api_effect (ret a).
Proof. intros s. by left. Qed.

Lemma api_effect_raise (e : exn) : api_effect (@raise A e).
Proof. intros s. by left. Qed.

Lemma api_effect_bind (m : M A) (k : A -> M B) :
  api_effect m -> (forall a, api_effect (k a)) -> api_effect (bind m k).
Proof.
  intros Hm Hk s. unfold bind.
  specialize (Hm s). destruct (m s) as [[a|e] s1]; simpl in *; [|exact Hm].
  eapply sets_both_or_nothing_trans; [exact Hm | apply Hk].
Qed.

Lemma api_effect_try (m : M A) (h : exn -> M A) :
  api_effect m -> (forall e, api_effect (h e)) -> api_effect (try_except m h).
Proof.
  intros Hm Hh s. unfold try_except.
  specialize (Hm s). destruct (m s) as [[a|e] s1]; simpl in *; [exact Hm|].
  eapply sets_both_or_nothing_trans; [exact Hm | apply Hh].
Qed.

Lemma api_effect_if (b : bool) (m1 m2 : M A) :
  api_effect m1 -> api_effect m2 -> api_effect (if b then m1 else m2).
Proof. by destruct b. Qed.
End ApiEffect.

Lemma api_effect_requests_call (r : http_request) : api_effect (requests_call r).
Proof.
  intros s. unfold requests_call.
  destruct (upstream _ _ _); by left.
Qed.

Lemma api_effect_lift_result {A} (r : exn + A) : api_effect (lift_result r).
Proof. destruct r; intros s; by left. Qed.

Lemma api_effect_response_json (r : http_reply) : api_effect (response_json r).
Proof. unfold response_json. destruct (json_body r); intros s; by left. Qed.

Lemma api_effect_get_azure_token (cfg : config) : api_effect (get_azure_token cfg).
Proof.
  intros s. destruct (get_azure_token_effect cfg s) as [_ [H | (tok & exp & _ & H)]].
  - by left.
  - right. eauto.
Qed.

Create HintDb api_effect.
#[local] Hint Resolve api_effect_ret api_effect_raise api_effect_requests_call
  api_effect_lift_result api_effect_response_json api_effect_get_azure_token
  : api_effect.

Ltac api_effect_steps :=
  repeat first
    [ apply api_effect_bind; [|intros ?]
    | apply api_effect_try; [|intros ?]
    | apply api_effect_if
    | solve [auto with api_effect] ].

Lemma api_effect_synthesize_speech_azure (cfg : config) (text voice : string) :
  api_effect (synthesize_speech_azure cfg text voice).
Proof. unfold synthesize_speech_azure. api_effect_steps. Qed.

Lemma api_effect_synthesize_speech_free (text : string) :
  api_effect (synthesize_speech_free text).
Proof. unfold synthesize_speech_free. api_effect_steps. Qed.

#[local] Hint Resolve api_effect_synthesize_speech_azure
  api_effect_synthesize_speech_free : api_effect.

Lemma api_effect_text_to_speech (cfg : config) (args : gmap string string) :
  api_effect (text_to_speech cfg args).
Proof. unfold text_to_speech. api_effect_steps. Qed.

Lemma api_effect_text_to_speech_post
    (cfg : config) (data : option (gmap string string)) :
  api_effect (text_to_speech_post cfg data).
Proof.
  unfold text_to_speech_post.
  destruct data as [d|]; [|api_effect_steps].
  destruct (bool_decide (d = ∅)); [api_effect_steps|].
  destruct (d !! "text"); api_effect_steps.
Qed.

Lemma api_effect_get_available_voices (cfg : config) :
  api_effect (get_available_voices cfg).
Proof. unfold get_available_voices. api_effect_steps. Qed.

Lemma run_operation_effect (cfg : config) (op : operation) (s : sys) :
  sets_both_or_nothing (tts_api s) (tts_api (run_operation cfg op s)).
Proof.
  destruct op; simpl; try (by left).
  - apply api_effect_get_azure_token.
  - apply api_effect_synthesize_speech_azure.
  - apply api_effect_synthesize_speech_free.
  - apply api_effect_text_to_speech.
  - apply api_effect_text_to_speech_post.
  - apply api_effect_get_available_voices.
Qed.

Lemma run_snoc (cfg : config) (ops : list operation) (op : operation) (s : sys) :
  run cfg (ops ++ [op]) s = run_operation cfg op (run cfg ops s).
Proof. unfold run. by rewrite fold_left_app. Qed.

(** C10: in every state the process can reach from start-up by running
    methods and routes, the cached token is [None] exactly when the expiry is
    [None]; each further operation, whether it succeeds or raises, leaves the
    object untouched or assigns both fields. *)
Theorem token_state_invariant (cfg : config) (w : world) (ops : list operation) :
  token_state_inv (tts_api (run cfg ops (boot w)))
  /\ forall op,
       sets_both_or_nothing (tts_api (run cfg ops (boot w)))
                            (tts_api (run_operation cfg op (run cfg ops (boot w)))).
Proof.
  split; [|intros op; apply run_operation_effect].
  induction ops as [|op ops IH] using rev_ind.
  - simpl. unfold token_state_inv. simpl. done.
  - rewrite run_snoc.
    eapply sets_both_or_nothing_inv; [exact IH | apply run_operation_effect].
Qed.

(** A failed acquisition in particular changes neither field. *)
Lemma get_azure_token_failure_keeps_state (cfg : config) (s : sys) (e : exn) :
  fst (get_azure_token cfg s) = Raise e ->
  tts_api (snd (get_azure_token cfg s)) = tts_api s.
Proof.
  intros Hfail.
  destruct (get_azure_token_effect cfg s) as [_ [H | (tok & exp & Hret & _)]];
    [exact H | congruence].
Qed.

(** ** Base64: decoding undoes encoding *)

(** Facts about one or two octets are settled by running through all 256
    values of each. *)
Definition all_bytes : list byte :=
  map (fun k => byte_of_N (N.of_nat k)) (seq 0 256).

Lemma all_bytes_complete (b : byte) : In b all_bytes.
Proof.
  unfold all_bytes. apply in_map_iff.
  exists (N.to_nat (Byte.to_N b)). split.
  - unfold byte_of_N. rewrite N2Nat.id. by rewrite Byte.of_to_N.
  - apply in_seq. pose proof (Byte.to_N_bounded b). lia.
Qed.

Lemma byte_forall (P : byte -> bool) :
  forallb P all_bytes = true -> forall b, P b = true.
Proof.
  intros H b. rewrite forallb_forall in H. apply H, all_bytes_complete.
Qed.

Lemma byte_forall2 (P : byte -> byte -> bool) :
  forallb (fun a => forallb (P a) all_bytes) all_bytes = true ->
  forall a b, P a b = true.
Proof.
  intros H a b.
  apply (byte_forall (P a)). revert a. by apply byte_forall.
Qed.

Lemma b64_value_digit (n : N) :
  (n < 64)%N -> b64_value (b64_digit n) = Some n.
Proof.
  intros Hn.
  assert (H : forallb (fun k => match b64_value (b64_digit (N.of_nat k)) with
                                | Some m => N.eqb m (N.of_nat k)
                                | None => false
                                end) (seq 0 64) = true) by (vm_compute; reflexivity).
  rewrite forallb_forall in H.
  specialize (H (N.to_nat n)). rewrite N2Nat.id in H.
  destruct (b64_value (b64_digit n)) as [m|].
  - f_equal. apply N.eqb_eq, H, in_seq. lia.
  - discriminate H. apply in_seq. lia.
Qed.

Lemma b64_digit_not_pad (n : N) :
  (n < 64)%N -> Byte.eqb (b64_digit n) b64_pad = false.
Proof.
  intros Hn.
  assert (H : forallb (fun k => negb (Byte.eqb (b64_digit (N.of_nat k)) b64_pad))
                (seq 0 64) = true) by (vm_compute; reflexivity).
  rewrite forallb_forall in H.
  specialize (H (N.to_nat n)). rewrite N2Nat.id in H.
  apply negb_true_iff, H, in_seq. lia.
Qed.

Lemma sextet1_bound (a : byte) : (sextet1 a < 64)%N.
Proof.
  apply N.ltb_lt. revert a. apply byte_forall. vm_compute. reflexivity.
Qed.

Lemma sextet2_bound (a b : byte) : (sextet2 a b < 64)%N.
Proof.
  apply N.ltb_lt. revert a b.
  apply (byte_forall2 (fun a b => (sextet2 a b <? 64)%N)). vm_compute. reflexivity.
Qed.

Lemma sextet3_bound (b c : byte) : (sextet3 b c < 64)%N.
Proof.
  apply N.ltb_lt. revert b c.
  apply (byte_forall2 (fun b c => (sextet3 b c <? 64)%N)). vm_compute. reflexivity.
Qed.

Lemma sextet4_bound (c : byte) : (sextet4 c < 64)%N.
Proof.
  apply N.ltb_lt. revert c. apply byte_forall. vm_compute. reflexivity.
Qed.

Lemma octet1_sextets (a b : byte) : octet1 (sextet1 a) (sextet2 a b) = a.
Proof.
  apply Byte.byte_dec_bl. revert a b.
  apply (byte_forall2 (fun a b => Byte.eqb (octet1 (sextet1 a) (sextet2 a b)) a)).
  vm_compute. reflexivity.
Qed.

(** The second octet takes its high half from the second digit and its low
    half from the third; each half depends on two octets only. *)
Lemma octet2_split (v2 v3 : N) :
  octet2 v2 v3
  = byte_of_N (N.lor (N.land (N.shiftl v2 4) 255) (N.land (N.shiftr v3 2) 255)).
Proof. unfold octet2. by rewrite N.land_lor_distr_l. Qed.

Lemma octet2_high (a b : byte) :
  N.land (N.shiftl (sextet2 a b) 4) 255 = N.shiftl (N.shiftr (Byte.to_N b) 4) 4.
Proof.
  apply N.eqb_eq. revert a b.
  apply (byte_forall2 (fun a b =>
           N.eqb (N.land (N.shiftl (sextet2 a b) 4) 255)
                 (N.shiftl (N.shiftr (Byte.to_N b) 4) 4))).
  vm_compute. reflexivity.
Qed.

Lemma octet2_low (b c : byte) :
  N.land (N.shiftr (sextet3 b c) 2) 255 = N.land (Byte.to_N b) 15.
Proof.
  apply N.eqb_eq. revert b c.
  apply (byte_forall2 (fun b c =>
           N.eqb (N.land (N.shiftr (sextet3 b c) 2) 255) (N.land (Byte.to_N b) 15))).
  vm_compute. reflexivity.
Qed.

Lemma octet2_halves (b : byte) :
  byte_of_N (N.lor (N.shiftl (N.shiftr (Byte.to_N b) 4) 4) (N.land (Byte.to_N b) 15))
  = b.
Proof.
  apply Byte.byte_dec_bl. revert b. apply byte_forall. vm_compute. reflexivity.
Qed.

Lemma octet2_sextets (a b c : byte) : octet2 (sextet2 a b) (sextet3 b c) = b.
Proof.
  rewrite octet2_split, octet2_high, octet2_low. apply octet2_halves.
Qed.

Lemma octet3_split (v3 v4 : N) :
  octet3 v3 v4 = byte_of_N (N.lor (N.land (N.shiftl v3 6) 255) (N.land v4 255)).
Proof. unfold octet3. by rewrite N.land_lor_distr_l. Qed.

Lemma octet3_high (b c : byte) :
  N.land (N.shiftl (sextet3 b c) 6) 255 = N.shiftl (N.shiftr (Byte.to_N c) 6) 6.
Proof.
  apply N.eqb_eq. revert b c.
  apply (byte_forall2 (fun b c =>
           N.eqb (N.land (N.shiftl (sextet3 b c) 6) 255)
                 (N.shiftl (N.shiftr (Byte.to_N c) 6) 6))).
  vm_compute. reflexivity.
Qed.

Lemma octet3_halves (c : byte) :
  byte_of_N (N.lor (N.shiftl (N.shiftr (Byte.to_N c) 6) 6)
                   (N.land (sextet4 c) 255)) = c.
Proof.
  apply Byte.byte_dec_bl. revert c. apply byte_forall. vm_compute. reflexivity.
Qed.

Lemma octet3_sextets (b c : byte) : octet3 (sextet3 b c) (sextet4 c) = c.
Proof. rewrite octet3_split, octet3_high. apply octet3_halves. Qed.

(** Lists are taken apart three elements at a time, as the encoder does. *)
Lemma list_ind3 {A} (P : list A -> Prop) :
  P [] -> (forall a, P [a]) -> (forall a b, P [a; b]) ->
  (forall a b c rest, P rest -> P (a :: b :: c :: rest)) ->
  forall l, P l.
Proof.
  intros H0 H1 H2 H3.
  assert (H : forall l, P l /\ (forall a, P (a :: l)) /\ (forall a b, P (a :: b :: l))).
  { induction l as [|x l (IH0 & IH1 & IH2)]; [by auto|].
    split; [apply IH1|]. split; [intros a; apply IH2|]. intros a b. by apply H3. }
  intros l. apply H.
Qed.

Lemma b64encode_nil (s : list byte) : b64encode s = [] -> s = [].
Proof. destruct s as [|a [|b [|c rest]]]; simpl; congruence. Qed.

Lemma b64decode_last_full (a b c : byte) :
  b64decode_last (b64_digit (sextet1 a)) (b64_digit (sextet2 a b))
                 (b64_digit (sextet3 b c)) (b64_digit (sextet4 c))
  = Some [a; b; c].
Proof.
  unfold b64decode_last.
  rewrite !b64_value_digit
    by auto using sextet1_bound, sextet2_bound, sextet3_bound, sextet4_bound.
  rewrite b64_digit_not_pad by apply sextet4_bound.
  by rewrite octet1_sextets, octet2_sextets, octet3_sextets.
Qed.

Theorem b64decode_b64encode (s : list byte) : b64decode (b64encode s) = Some s.
Proof.
  induction s as [|a|a b|a b c rest IH] using list_ind3.
  - reflexivity.
  - cbn [b64encode b64decode]. unfold b64decode_last.
    rewrite !b64_value_digit by auto using sextet1_bound, sextet2_bound.
    replace (Byte.eqb b64_pad b64_pad) with true by reflexivity.
    by rewrite octet1_sextets.
  - cbn [b64encode b64decode]. unfold b64decode_last.
    rewrite !b64_value_digit
      by auto using sextet1_bound, sextet2_bound, sextet3_bound.
    replace (Byte.eqb b64_pad b64_pad) with true by reflexivity.
    rewrite b64_digit_not_pad by apply sextet3_bound.
    by rewrite octet1_sextets, octet2_sextets.
  - cbn [b64encode b64decode].
    destruct (b64encode rest) as [|d ds] eqn:Henc.
    + apply b64encode_nil in Henc as ->. apply b64decode_last_full.
    + rewrite !b64_value_digit
        by auto using sextet1_bound, sextet2_bound, sextet3_bound, sextet4_bound.
      rewrite IH.
      by rewrite octet1_sextets, octet2_sextets, octet3_sextets.
Qed.

(** ** The adapters *)

Lemma calls_made_app {A} (m : M A) (s : sys) (calls : list http_request) :
  sent (env (snd (m s))) = (sent (env s) ++ calls)%list -> calls_made m s = calls.
Proof. unfold calls_made. intros ->. apply drop_app_length. Qed.

(** The free adapter sends its one request whatever happens next and never
    touches the object. *)
Lemma synthesize_speech_free_run (text : string) (s : sys) :
  let w := env s in
  snd (synthesize_speech_free text s)
  = {| tts_api := tts_api s;
       env := {| clock := clock w; reads := reads w; upstream := upstream w;
                 sent := sent w ++ [free_tts_request text] |} |}.
Proof.
  unfold synthesize_speech_free. run_monad.
  destruct (upstream (env s) _ _) as [response|msg]; [|reflexivity].
  destruct (status_code response =? 200); reflexivity.
Qed.

Lemma synthesize_speech_free_calls (text : string) (s : sys) :
  calls_made (synthesize_speech_free text) s = [free_tts_request text].
Proof. apply calls_made_app. by rewrite synthesize_speech_free_run. Qed.

(** What the paid adapter does once the token is in hand. *)
Lemma synthesize_speech_azure_with_token
    (cfg : config) (text voice token : string) (s s1 : sys) :
  get_azure_token cfg s = (Return token, s1) ->
  let w1 := env s1 in
  let req := tts_request cfg token voice text in
  let s2 := {| tts_api := tts_api s1;
               env := {| clock := clock w1; reads := reads w1;
                         upstream := upstream w1; sent := sent w1 ++ [req] |} |} in
  synthesize_speech_azure cfg text voice s =
    match upstream w1 (length (sent w1)) req with
    | Answered response =>
        if status_code response =? 200 then (Return (content response), s2)
        else (Raise (Exception ("Azure synthesis failed: " ++
                       "Azure API error: " ++ str_int (status_code response))), s2)
    | Failed msg => (Raise (Exception ("Azure synthesis failed: " ++ msg)), s2)
    end.
Proof.
  intros Hget. simpl.
  unfold synthesize_speech_azure, try_except, bind. rewrite Hget.
  unfold requests_call. simpl.
  destruct (upstream (env s1) _ _) as [response|msg]; [|reflexivity].
  destruct (status_code response =? 200); reflexivity.
Qed.

(** C6, as amended: when [get_azure_token] raises, [synthesize_speech_azure]
    raises too, in the state the failed acquisition left and without a
    further call, but the exception is a new one: its message is the
    original message behind the prefix [Azure synthesis failed: ]. *)
Theorem synthesize_speech_azure_wraps_token_error
    (cfg : config) (text voice : string) (s : sys) (e : exn) :
  fst (get_azure_token cfg s) = Raise e ->
  synthesize_speech_azure cfg text voice s
  = (Raise (Exception ("Azure synthesis failed: " ++ str_exn e)),
     snd (get_azure_token cfg s)).
Proof.
  intros Hfail.
  unfold synthesize_speech_azure, try_except, bind.
  destruct (get_azure_token cfg s) as [[token|e'] s1]; simpl in *; [discriminate|].
  injection Hfail as ->. reflexivity.
Qed.

(** C6 as stated fails both for the missing key and for a refused issuance:
    the caller of the adapter sees another exception than the one
    [get_azure_token] raised. *)
Lemma synthesize_speech_azure_changes_error :
  (fst (get_azure_token cfg_no_key (boot (world_answering 200 0)))
   = Raise (Exception "Azure Speech Key not configured")
   /\ fst (synthesize_speech_azure cfg_no_key "hello" default_voice
             (boot (world_answering 200 0)))
      = Raise (Exception "Azure synthesis failed: Azure Speech Key not configured")
   /\ raised (fst (synthesize_speech_azure cfg_no_key "hello" default_voice
                     (boot (world_answering 200 0))))
      <> raised (fst (get_azure_token cfg_no_key (boot (world_answering 200 0)))))
  /\ (fst (get_azure_token cfg_paid (boot (world_answering 401 0)))
      = Raise (Exception "Failed to get Azure token: 401")
      /\ fst (synthesize_speech_azure cfg_paid "hello" default_voice
                (boot (world_answering 401 0)))
         = Raise (Exception "Azure synthesis failed: Failed to get Azure token: 401")
      /\ raised (fst (synthesize_speech_azure cfg_paid "hello" default_voice
                        (boot (world_answering 401 0))))
         <> raised (fst (get_azure_token cfg_paid (boot (world_answering 401 0))))).
Proof. repeat split; try reflexivity; vm_compute; discriminate. Qed.

(** The amended C6 on the two failures above. *)
Lemma synthesize_speech_azure_wraps_token_error_witness :
  fst (synthesize_speech_azure cfg_no_key "hello" default_voice
         (boot (world_answering 200 0)))
  = Raise (Exception "Azure synthesis failed: Azure Speech Key not configured")
  /\ fst (synthesize_speech_azure cfg_paid "hello" default_voice
            (boot (world_answering 401 0)))
     = Raise (Exception "Azure synthesis failed: Failed to get Azure token: 401").
Proof.
  split.
  - rewrite (synthesize_speech_azure_wraps_token_error cfg_no_key "hello"
               default_voice (boot (world_answering 200 0))
               (Exception "Azure Speech Key not configured") eq_refl).
    reflexivity.
  - rewrite (synthesize_speech_azure_wraps_token_error cfg_paid "hello"
               default_voice (boot (world_answering 401 0))
               (Exception "Failed to get Azure token: 401") eq_refl).
    reflexivity.
Defined.

(** ** Which adapter a request reaches *)

Lemma primary_call_issue (cfg : config) (key : string) :
  primary_call cfg (issue_token_request cfg key).
Proof. left. by exists key. Qed.

Lemma primary_call_tts (cfg : config) (token voice text : string) :
  primary_call cfg (tts_request cfg token voice text).
Proof. right. by exists token, voice, text. Qed.

Lemma free_request_not_primary (cfg : config) (text : string) :
  ~ primary_call cfg (free_tts_request text).
Proof. intros [(key & H) | (token & voice & text' & H)]; discriminate H. Qed.

Lemma primary_not_fallback (cfg : config) (text : string) (calls : list http_request) :
  handled_by_primary cfg calls -> handled_by_fallback text calls -> False.
Proof.
  intros [_ Hall] ->. inversion Hall as [|r rs Hr _]; subst.
  by apply free_request_not_primary in Hr.
Qed.

(** With credentials configured the paid adapter sends one or two requests:
    the issuance request when no fresh token is cached, and the synthesis
    request once a token is in hand. *)
Lemma synthesize_speech_azure_calls (cfg : config) (txt voice : string) (s : sys) :
  credentials_configured cfg = true ->
  handled_by_primary cfg (calls_made (synthesize_speech_azure cfg txt voice) s).
Proof.
  unfold credentials_configured. intros Hcred.
  destruct (AZURE_SPEECH_KEY cfg) as [key|] eqn:Hkey; [|discriminate].
  simpl in Hcred. apply truthy_true in Hcred.
  destruct (token_is_fresh_spec s)
    as (b & s1 & Hfresh & Hapi & Hsent & Hup & Hclock & Hb).
  destruct b.
  - destruct Hb as [Hb _].
    destruct (Hb eq_refl) as (tok & exp & Ht & Hne & He & Hlt).
    pose proof (get_azure_token_hit cfg s key tok exp Hkey Hcred Ht Hne He Hlt) as Hget.
    erewrite calls_made_app with (calls := [tts_request cfg tok voice txt]).
    + split; [discriminate|].
      constructor; [apply primary_call_tts | constructor].
    + rewrite (synthesize_speech_azure_with_token cfg txt voice tok s _ Hget).
      simpl. destruct (upstream (env s) _ _) as [response|msg]; [|reflexivity].
      destruct (status_code response =? 200); reflexivity.
  - pose proof (get_azure_token_miss cfg s s1 key Hkey Hcred Hfresh) as Hget.
    simpl in Hget.
    destruct (upstream (env s1) _ _) as [response|msg] eqn:Hans.
    + destruct (status_code response =? 200) eqn:Hcode.
      * erewrite calls_made_app
          with (calls := [issue_token_request cfg key;
                          tts_request cfg (text response) voice txt]).
        -- split; [discriminate|].
           constructor; [apply primary_call_issue|].
           constructor; [apply primary_call_tts | constructor].
        -- rewrite (synthesize_speech_azure_with_token cfg txt voice _ s _ Hget).
           simpl. rewrite Hsent, <- app_assoc. simpl.
           case_answer; [|reflexivity]. case_status; reflexivity.
      * erewrite calls_made_app with (calls := [issue_token_request cfg key]).
        -- split; [discriminate|].
           constructor; [apply primary_call_issue | constructor].
        -- unfold synthesize_speech_azure, try_except, bind. rewrite Hget.
           simpl. by rewrite Hsent.
    + erewrite calls_made_app with (calls := [issue_token_request cfg key]).
      * split; [discriminate|].
        constructor; [apply primary_call_issue | constructor].
      * unfold synthesize_speech_azure, try_except, bind. rewrite Hget.
        simpl. by rewrite Hsent.
Qed.

(** After validation, [GET /speech] leaves the system where the adapter it
    called left it. *)
Lemma text_to_speech_valid
    (cfg : config) (args : gmap string string) (text : string) (s : sys) :
  args !! "text" = Some text -> text <> "" -> (String.length text <= 1000)%nat ->
  text_to_speech cfg args
  = try_except
      (audio_data <-
         (if USE_FREE_TTS cfg || negb (truthy_opt (AZURE_SPEECH_KEY cfg))
          then synthesize_speech_free text
          else synthesize_speech_azure cfg text default_voice) ;;
       ret {| body := FileBody audio_data "audio/mpeg" "speech.mp3";
              status := 200 |})
      (fun e => ret (json_error (str_exn e) 500)).
Proof.
  intros Harg Hne Hlen. unfold text_to_speech. rewrite Harg. simpl.
  apply truthy_true in Hne as ->. simpl.
  destruct (1000 <? String.length text)%nat eqn:Hlong; [|reflexivity].
  apply Nat.ltb_lt in Hlong. lia.
Qed.

Lemma route_state {A B} (m : M A) (k : A -> B) (h : exn -> B) (s : sys) :
  snd (try_except (a <- m ;; ret (k a)) (fun e => ret (h e)) s) = snd (m s).
Proof.
  unfold try_except, bind, ret. by destruct (m s) as [[a|e] s1].
Qed.

Lemma text_to_speech_state
    (cfg : config) (args : gmap string string) (text : string) (s : sys) :
  args !! "text" = Some text -> text <> "" -> (String.length text <= 1000)%nat ->
  snd (text_to_speech cfg args s)
  = snd ((if USE_FREE_TTS cfg || negb (truthy_opt (AZURE_SPEECH_KEY cfg))
          then synthesize_speech_free text
          else synthesize_speech_azure cfg text default_voice) s).
Proof.
  intros Harg Hne Hlen.
  rewrite (text_to_speech_valid cfg args text s Harg Hne Hlen).
  apply route_state.
Qed.

Lemma with_text_not_empty (d : gmap string string) (text : string) :
  d !! "text" = Some text -> bool_decide (d = ∅) = false.
Proof.
  intros Hd. apply bool_decide_eq_false. intros ->.
  by rewrite lookup_empty in Hd.
Qed.

(** [POST /speech] with a [text] field runs the adapter on it, whatever the
    text is. *)
Lemma text_to_speech_post_with_text
    (cfg : config) (d : gmap string string) (text : string) :
  d !! "text" = Some text ->
  text_to_speech_post cfg (Some d)
  = let voice := default "en-US-JennyNeural" (d !! "voice") in
    try_except
      (audio_data <-
         (if USE_FREE_TTS cfg || negb (truthy_opt (AZURE_SPEECH_KEY cfg))
          then synthesize_speech_free text
          else synthesize_speech_azure cfg text voice) ;;
       ret (jsonify (JObj
              [("status", JStr "success");
               ("text", JStr text);
               ("audio_format", JStr "mp3");
               ("audio_data", JStr (string_of_list_byte (b64encode audio_data)));
               ("voice", JStr (if negb (USE_FREE_TTS cfg) then voice
                               else "free-tts"))])))
      (fun e => ret (json_error (str_exn e) 500)).
Proof.
  intros Hd. unfold text_to_speech_post.
  by rewrite (with_text_not_empty d text Hd), Hd.
Qed.

Lemma text_to_speech_post_state
    (cfg : config) (d : gmap string string) (text : string) (s : sys) :
  d !! "text" = Some text ->
  snd (text_to_speech_post cfg (Some d) s)
  = snd ((if USE_FREE_TTS cfg || negb (truthy_opt (AZURE_SPEECH_KEY cfg))
          then synthesize_speech_free text
          else synthesize_speech_azure cfg text
                 (default "en-US-JennyNeural" (d !! "voice"))) s).
Proof.
  intros Hd. rewrite (text_to_speech_post_with_text cfg d text Hd).
  apply (route_state _ (fun audio_data => jsonify _)).
Qed.

Lemma selection_calls (cfg : config) (s : sys) (txt voice : string) :
  let primary := credentials_configured cfg && negb (USE_FREE_TTS cfg) in
  let calls :=
    calls_made (if USE_FREE_TTS cfg || negb (truthy_opt (AZURE_SPEECH_KEY cfg))
                then synthesize_speech_free txt
                else synthesize_speech_azure cfg txt voice) s in
  (primary = true <-> handled_by_primary cfg calls)
  /\ (primary = false <-> handled_by_fallback txt calls).
Proof.
  simpl. unfold credentials_configured.
  destruct (truthy_opt (AZURE_SPEECH_KEY cfg)) eqn:Hcred;
    destruct (USE_FREE_TTS cfg) eqn:Hfree; simpl.
  all: try (pose proof (synthesize_speech_free_calls txt s) as Hcalls;
            split; split; try done;
            intros Hprim; exfalso;
            exact (primary_not_fallback cfg txt _ Hprim Hcalls)).
  pose proof (synthesize_speech_azure_calls cfg txt voice s Hcred) as Hcalls.
  split; split; try done.
  intros Hfall. exfalso. exact (primary_not_fallback cfg txt _ Hcalls Hfall).
Qed.

(** C2: for every request that gets past validation, on [GET /speech] and on
    [POST /speech] alike, the requests sent are those of the paid adapter
    exactly when credentials are configured and the free-tier flag is off,
    and the one request of the free adapter in every other case, whatever
    the state of the process and of the world. *)
Theorem provider_selection
    (cfg : config) (s : sys) (args d : gmap string string) (txt body_txt : string) :
  args !! "text" = Some txt -> txt <> "" -> (String.length txt <= 1000)%nat ->
  d !! "text" = Some body_txt ->
  let primary := credentials_configured cfg && negb (USE_FREE_TTS cfg) in
  (primary = true
   <-> handled_by_primary cfg (calls_made (text_to_speech cfg args) s))
  /\ (primary = false
      <-> handled_by_fallback txt (calls_made (text_to_speech cfg args) s))
  /\ (primary = true
      <-> handled_by_primary cfg (calls_made (text_to_speech_post cfg (Some d)) s))
  /\ (primary = false
      <-> handled_by_fallback body_txt
            (calls_made (text_to_speech_post cfg (Some d)) s)).
Proof.
  intros Harg Hne Hlen Hd primary.
  unfold calls_made.
  rewrite (text_to_speech_state cfg args txt s Harg Hne Hlen).
  rewrite (text_to_speech_post_state cfg d body_txt s Hd).
  destruct (selection_calls cfg s txt default_voice) as [H1 H2].
  destruct (selection_calls cfg s body_txt (default "en-US-JennyNeural" (d !! "voice")))
    as [H3 H4].
  auto.
Qed.

(** C2 on three configurations: key without the flag reaches the paid
    adapter; key with the flag, and no key, reach the free one. *)
Lemma provider_selection_witness :
  handled_by_primary cfg_paid
    (calls_made (text_to_speech cfg_paid {[ "text" := "hello" ]})
                (boot (world_answering 200 0)))
  /\ handled_by_fallback "hello"
       (calls_made (text_to_speech cfg_forced_free {[ "text" := "hello" ]})
                   (boot (world_answering 200 0)))
  /\ handled_by_fallback "hello"
       (calls_made (text_to_speech_post cfg_no_key (Some {[ "text" := "hello" ]}))
                   (boot (world_answering 200 0))).
Proof.
  split; [|split].
  - apply (provider_selection cfg_paid (boot (world_answering 200 0))
             {[ "text" := "hello" ]} {[ "text" := "hello" ]} "hello" "hello");
      first [ reflexivity | discriminate | simpl; lia ].
  - apply (provider_selection cfg_forced_free (boot (world_answering 200 0))
             {[ "text" := "hello" ]} {[ "text" := "hello" ]} "hello" "hello");
      first [ reflexivity | discriminate | simpl; lia ].
  - apply (provider_selection cfg_no_key (boot (world_answering 200 0))
             {[ "text" := "hello" ]} {[ "text" := "hello" ]} "hello" "hello");
      first [ reflexivity | discriminate | simpl; lia ].
Defined.

(** ** Validation on the two request surfaces *)

(** [GET /speech] turns down a missing or empty [text] before any call. *)
Lemma text_to_speech_rejects_empty (cfg : config) (args : gmap string string) (s : sys) :
  default "" (args !! "text") = "" ->
  text_to_speech cfg args s
  = (Return (json_error "No text provided. Use ?text=Your+message" 400), s).
Proof. intros Hempty. unfold text_to_speech. by rewrite Hempty. Qed.

(** [GET /speech] turns down more than 1000 characters before any call. *)
Lemma text_to_speech_rejects_long
    (cfg : config) (args : gmap string string) (txt : string) (s : sys) :
  args !! "text" = Some txt -> (1000 < String.length txt)%nat ->
  text_to_speech cfg args s
  = (Return (json_error "Text too long. Maximum 1000 characters." 400), s).
Proof.
  intros Harg Hlong. unfold text_to_speech. rewrite Harg. simpl.
  destruct txt as [|c rest]; [simpl in Hlong; lia|]. simpl truthy. simpl negb.
  cbv iota. apply Nat.ltb_lt in Hlong. by rewrite Hlong.
Qed.

(** [POST /speech] turns down a missing body, an empty object and an object
    without a [text] field before any call. *)
Lemma text_to_speech_post_rejects_absent
    (cfg : config) (data : option (gmap string string)) (s : sys) :
  data = None \/ (exists d, data = Some d /\ d !! "text" = None) ->
  text_to_speech_post cfg data s
  = (Return (json_error "No text provided in JSON body" 400), s).
Proof.
  intros [-> | (d & -> & Hd)]; [reflexivity|].
  unfold text_to_speech_post. rewrite Hd. by destruct (bool_decide (d = ∅)).
Qed.

(** C3 at the inputs where [POST /speech] departs from it: a [text] of 1001
    characters and an empty [text] are both sent to the adapter and answered
    with status 200, where [GET /speech] answers 400 without a call. *)
Theorem text_to_speech_post_skips_length_checks :
  String.length (letters 1001) = 1001%nat
  /\ calls_made (text_to_speech_post cfg_no_key (Some {[ "text" := letters 1001 ]}))
       (boot (world_answering 200 0))
     = [free_tts_request (letters 1001)]
  /\ option_map status
       (match fst (text_to_speech_post cfg_no_key (Some {[ "text" := letters 1001 ]})
                     (boot (world_answering 200 0)))
        with Return r => Some r | Raise _ => None end)
     = Some 200
  /\ calls_made (text_to_speech_post cfg_no_key (Some {[ "text" := "" ]}))
       (boot (world_answering 200 0))
     = [free_tts_request ""]
  /\ fst (text_to_speech cfg_no_key {[ "text" := letters 1001 ]}
            (boot (world_answering 200 0)))
     = Return (json_error "Text too long. Maximum 1000 characters." 400)
  /\ fst (text_to_speech cfg_no_key {[ "text" := "" ]} (boot (world_answering 200 0)))
     = Return (json_error "No text provided. Use ?text=Your+message" 400).
Proof. repeat split; vm_compute; reflexivity. Qed.

(** On [GET /speech] a text of exactly 1000 characters passes and reaches
    the adapter. *)
Lemma text_to_speech_accepts_1000 :
  String.length (letters 1000) = 1000%nat
  /\ calls_made (text_to_speech cfg_no_key {[ "text" := letters 1000 ]})
       (boot (world_answering 200 0))
     = [free_tts_request (letters 1000)].
Proof. split; vm_compute; reflexivity. Qed.

(** ** The envelope of [POST /speech] *)

Lemma text_to_speech_post_success
    (cfg : config) (d : gmap string string) (txt : string) (s s' : sys)
    (audio : list byte) :
  d !! "text" = Some txt ->
  (if USE_FREE_TTS cfg || negb (truthy_opt (AZURE_SPEECH_KEY cfg))
   then synthesize_speech_free txt
   else synthesize_speech_azure cfg txt (default "en-US-JennyNeural" (d !! "voice"))) s
  = (Return audio, s') ->
  text_to_speech_post cfg (Some d) s
  = (Return (jsonify (JObj
       [("status", JStr "success");
        ("text", JStr txt);
        ("audio_format", JStr "mp3");
        ("audio_data", JStr (string_of_list_byte (b64encode audio)));
        ("voice", JStr (if negb (USE_FREE_TTS cfg)
                        then default "en-US-JennyNeural" (d !! "voice")
                        else "free-tts"))])), s').
Proof.
  intros Hd Hrun. rewrite (text_to_speech_post_with_text cfg d txt Hd).
  cbv zeta. unfold try_except, bind. rewrite Hrun. reflexivity.
Qed.

(** C7: whenever the adapter chosen for a [POST /speech] request returns
    bytes, the route answers 200 with a success envelope, and decoding its
    [audio_data] field gives back exactly those bytes. *)
Theorem post_speech_audio_round_trip
    (cfg : config) (d : gmap string string) (txt : string) (s s' : sys)
    (audio : list byte) :
  d !! "text" = Some txt ->
  (if USE_FREE_TTS cfg || negb (truthy_opt (AZURE_SPEECH_KEY cfg))
   then synthesize_speech_free txt
   else synthesize_speech_azure cfg txt (default "en-US-JennyNeural" (d !! "voice"))) s
  = (Return audio, s') ->
  exists (response : http_response) (audio_data : string),
    text_to_speech_post cfg (Some d) s = (Return response, s')
    /\ status response = 200
    /\ response_field "status" response = Some (JStr "success")
    /\ response_field "audio_data" response = Some (JStr audio_data)
    /\ b64decode (list_byte_of_string audio_data) = Some audio.
Proof.
  intros Hd Hrun.
  eexists _, _. split; [exact (text_to_speech_post_success cfg d txt s s' audio Hd Hrun)|].
  repeat split.
  rewrite list_byte_of_string_of_list_byte. apply b64decode_b64encode.
Qed.

(** C7 on the bytes [RIFF] coming from the free adapter. *)
Lemma post_speech_audio_round_trip_witness :
  exists (response : http_response) (audio_data : string),
    text_to_speech_post cfg_no_key (Some {[ "text" := "hello" ]})
      (boot (world_answering 200 0))
    = (Return response,
       snd (synthesize_speech_free "hello" (boot (world_answering 200 0))))
    /\ status response = 200
    /\ response_field "status" response = Some (JStr "success")
    /\ response_field "audio_data" response = Some (JStr audio_data)
    /\ b64decode (list_byte_of_string audio_data) = Some riff.
Proof.
  apply (post_speech_audio_round_trip cfg_no_key {[ "text" := "hello" ]} "hello"
           (boot (world_answering 200 0))); reflexivity.
Defined.

(** C5 at the input where the route departs from it: no key, flag off.  The
    free adapter serves the request, yet the [voice] field repeats the
    voice that was asked for, or the paid default when none was. *)
Theorem fallback_voice_label_without_key :
  calls_made (text_to_speech_post cfg_no_key
                (Some (<[ "voice" := "en-GB-RyanNeural" ]> {[ "text" := "hello" ]})))
    (boot (world_answering 200 0))
  = [free_tts_request "hello"]
  /\ match fst (text_to_speech_post cfg_no_key
                  (Some (<[ "voice" := "en-GB-RyanNeural" ]> {[ "text" := "hello" ]}))
                  (boot (world_answering 200 0)))
     with Return r => response_field "voice" r | Raise _ => None end
     = Some (JStr "en-GB-RyanNeural")
  /\ match fst (text_to_speech_post cfg_no_key (Some {[ "text" := "hello" ]})
                  (boot (world_answering 200 0)))
     with Return r => response_field "voice" r | Raise _ => None end
     = Some (JStr "en-US-JennyNeural").
Proof. repeat split; vm_compute; reflexivity. Qed.

(** With the flag on, the label is [free-tts] whatever voice was asked for. *)
Lemma forced_free_voice_label
    (cfg : config) (d : gmap string string) (txt : string) (s s' : sys)
    (audio : list byte) :
  USE_FREE_TTS cfg = true ->
  d !! "text" = Some txt ->
  synthesize_speech_free txt s = (Return audio, s') ->
  exists response,
    text_to_speech_post cfg (Some d) s = (Return response, s')
    /\ response_field "voice" response = Some (JStr "free-tts").
Proof.
  intros Hfree Hd Hrun.
  pose proof (text_to_speech_post_success cfg d txt s s' audio Hd) as Hpost.
  rewrite Hfree in Hpost. simpl in Hpost.
  eexists. split; [exact (Hpost Hrun) | reflexivity].
Qed.

(** ** Health *)

(** C9: without credentials (key unset or empty), [GET /health] answers
    [using_free_tts: true] whether the free-tier flag is on or off. *)
Theorem health_check_without_credentials (cfg : config) :
  credentials_configured cfg = false ->
  response_field "using_free_tts" (health_check cfg) = Some (JBool true)
  /\ response_field "status" (health_check cfg) = Some (JStr "healthy")
  /\ status (health_check cfg) = 200.
Proof.
  unfold credentials_configured, health_check, response_field. simpl.
  intros ->. by rewrite orb_true_r.
Qed.

(** C9 with the flag off and with the flag on. *)
Lemma health_check_without_credentials_witness :
  response_field "using_free_tts" (health_check cfg_no_key) = Some (JBool true)
  /\ response_field "using_free_tts"
       (health_check {| AZURE_SPEECH_KEY := Some ""; AZURE_REGION := "eastus";
                        USE_FREE_TTS := true |})
     = Some (JBool true).
Proof.
  split.
  - apply (health_check_without_credentials cfg_no_key). reflexivity.
  - apply (health_check_without_credentials
             {| AZURE_SPEECH_KEY := Some ""; AZURE_REGION := "eastus";
                USE_FREE_TTS := true |}).
    reflexivity.
Defined.

(** ** The voice catalog *)

(** On a catalog whose entries all carry a string [Locale], the
    comprehension of line 198 is a plain filter. *)
Lemma english_voices_filter (catalog : list json_object) :
  Forall has_locale catalog ->
  english_voices (map JObj catalog)
  = inr (map JObj (List.filter has_english_locale catalog)).
Proof.
  induction 1 as [|v rest (locale & Hv) _ IH]; [reflexivity|].
  simpl. unfold locale_is_english, getitem_Locale, has_english_locale.
  rewrite Hv, IH.
  by destruct (String.prefix "en-" locale).
Qed.

(** What comes back is a part of the catalog in catalog order, has at most
    ten entries, and all of them are English. *)
Lemma first_ten_english (catalog : list json_object) :
  let listed := firstn 10 (List.filter has_english_locale catalog) in
  listed `sublist_of` catalog
  /\ (length listed <= 10)%nat
  /\ Forall (fun v => has_english_locale v = true) listed.
Proof.
  simpl. split; [|split].
  - transitivity (List.filter has_english_locale catalog); [apply sublist_take|].
    induction catalog as [|v rest IH]; simpl; [constructor|].
    destruct (has_english_locale v); by constructor.
  - apply firstn_le_length.
  - apply Forall_forall. intros v Hv%list_elem_of_In.
    assert (Hin : In v (List.filter has_english_locale catalog)).
    { rewrite <- (firstn_skipn 10 (List.filter has_english_locale catalog)).
      apply in_or_app. by left. }
    by apply filter_In in Hin as [_ Hin].
Qed.

(** C8, as amended: with the paid provider selected, a token in hand and the
    catalog request answered 200 with a JSON array of objects that each
    carry a [Locale] string, [GET /voices] answers with the first ten
    entries, in catalog order, among those whose [Locale] starts with [en-].
    With the free provider selected it answers with the fixed notice and
    neither the object nor the world changes: no call is made. *)
Theorem voices_listing_contract (cfg : config) (s : sys) :
  (credentials_configured cfg = true -> USE_FREE_TTS cfg = false ->
   forall (token : string) (s1 : sys) (response : http_reply)
          (catalog : list json_object),
     get_azure_token cfg s = (Return token, s1) ->
     upstream (env s1) (length (sent (env s1))) (voices_request cfg token)
       = Answered response ->
     status_code response = 200 ->
     json_body response = JsonValue (JArr (map JObj catalog)) ->
     Forall has_locale catalog ->
     fst (get_available_voices cfg s)
     = Return (jsonify (JArr (map JObj
                 (firstn 10 (List.filter has_english_locale catalog))))))
  /\ (credentials_configured cfg = false \/ USE_FREE_TTS cfg = true ->
      get_available_voices cfg s = (Return (jsonify free_voices_notice), s)).
Proof.
  unfold credentials_configured. split.
  - intros Hcred Hfree token s1 response catalog Hget Hans Hcode Hjson Hloc.
    unfold get_available_voices. rewrite Hcred, Hfree. simpl.
    unfold try_except, bind. rewrite Hget.
    unfold requests_call. rewrite Hans, Hcode. simpl.
    unfold response_json. rewrite Hjson. unfold ret at 1.
    unfold comprehension, iterate.
    rewrite (english_voices_filter catalog Hloc). simpl.
    by rewrite firstn_map.
  - intros Hfallback. unfold get_available_voices.
    destruct Hfallback as [-> | ->]; [|reflexivity].
    by rewrite orb_true_r.
Qed.

(** C8 as stated fails on a catalog with an entry that has no [Locale]: the
    comprehension raises [KeyError] on it and the route answers 500 with the
    message ['Locale'], not the two English entries of that catalog. *)
Lemma voices_listing_fails_without_locale :
  credentials_configured cfg_paid = true /\ USE_FREE_TTS cfg_paid = false
  /\ List.filter has_english_locale broken_catalog
     = [voice_entry "v01" "en-US"; voice_entry "v03" "en-GB"]
  /\ fst (get_available_voices cfg_paid (boot world_with_broken_catalog))
     = Return (json_error "'Locale'" 500)
  /\ fst (get_available_voices cfg_paid (boot world_with_broken_catalog))
     <> Return (jsonify (JArr (map JObj
          (firstn 10 (List.filter has_english_locale broken_catalog))))).
Proof. repeat split; try reflexivity. vm_compute. discriminate. Qed.

(** C8 on the sample catalog of fifteen entries with twelve English ones:
    ten entries come back, [v01] first and [v13] last; without a key the
    notice comes back and nothing is sent. *)
Lemma voices_listing_contract_witness :
  fst (get_available_voices cfg_paid (boot (world_answering 200 0)))
  = Return (jsonify (JArr (map JObj
      [voice_entry "v01" "en-US"; voice_entry "v03" "en-GB";
       voice_entry "v04" "en-AU"; voice_entry "v05" "en-IN";
       voice_entry "v07" "en-CA"; voice_entry "v08" "en-IE";
       voice_entry "v09" "en-NZ"; voice_entry "v10" "en-ZA";
       voice_entry "v11" "en-US"; voice_entry "v13" "en-GB"])))
  /\ get_available_voices cfg_no_key (boot (world_answering 200 0))
     = (Return (jsonify free_voices_notice), boot (world_answering 200 0)).
Proof.
  split.
  - apply (proj1 (voices_listing_contract cfg_paid (boot (world_answering 200 0)))
             eq_refl eq_refl "token-1"
             (snd (get_azure_token cfg_paid (boot (world_answering 200 0))))
             (reply_with 200) sample_catalog eq_refl eq_refl eq_refl eq_refl).
    repeat (constructor; [eexists; reflexivity|]). constructor.
  - apply (proj2 (voices_listing_contract cfg_no_key (boot (world_answering 200 0)))).
    left. reflexivity.
Defined.

(** * Further properties of the module *)

(** ** Observations used below *)

(** The shapes a route's answer can take: audio with status 200, or a JSON
    body with status 200, 400 or 500. *)
Definition well_formed_answer (r : http_response) : Prop :=
  match body r with
  | FileBody _ mimetype _ => status r = 200 /\ mimetype = "audio/mpeg"
  | JsonBody _ => status r = 200 \/ status r = 400 \/ status r = 500
  end.

(** The address a request goes to. *)
Definition request_url (r : http_request) : string :=
  match r with
  | POST url _ _ => url
  | GET url _ _ => url
  end.

(** What one operation may add to the log: nothing, one request, or the
    token request followed by one request to the synthesis or the catalog
    endpoint. *)
Definition one_attempt (cfg : config) (calls : list http_request) : Prop :=
  calls = []
  \/ (exists r, calls = [r])
  \/ (exists key r,
        calls = [issue_token_request cfg key; r]
        /\ (request_url r = tts_url cfg \/ request_url r = voices_url cfg)).

Definition adds_one_attempt {A} (cfg : config) (m : M A) : Prop :=
  forall s, exists calls,
    sent (env (snd (m s))) = (sent (env s) ++ calls)%list
    /\ one_attempt cfg calls.

(** ** No operation contacts an endpoint twice *)

Lemma append_cancel_l (p a b : string) : p ++ a = p ++ b -> a = b.
Proof.
  induction p as [|c p IH]; simpl; [done|]. intros [= H]. by apply IH.
Qed.

Lemma issue_url_not_tts_url (cfg : config) : issue_token_url cfg <> tts_url cfg.
Proof.
  unfold issue_token_url, tts_url. intros H.
  apply append_cancel_l, append_cancel_l in H. discriminate H.
Qed.

Lemma issue_url_not_voices_url (cfg : config) : issue_token_url cfg <> voices_url cfg.
Proof.
  unfold issue_token_url, voices_url. intros H.
  apply append_cancel_l, append_cancel_l in H. discriminate H.
Qed.

Lemma one_attempt_bound (cfg : config) (calls : list http_request) :
  one_attempt cfg calls ->
  (length calls <= 2)%nat /\ NoDup (map request_url calls).
Proof.
  intros [-> | [(r & ->) | (key & r & -> & Hurl)]]; simpl.
  - split; [lia | constructor].
  - split; [lia|]. apply NoDup_singleton.
  - split; [lia|]. apply NoDup_cons. split; [|apply NoDup_singleton].
    intros Hin%list_elem_of_singleton.
    destruct Hurl as [Hurl | Hurl]; rewrite Hurl in Hin.
    + by apply issue_url_not_tts_url in Hin.
    + by apply issue_url_not_voices_url in Hin.
Qed.

Lemma adds_nothing {A} (cfg : config) (m : M A) :
  (forall s, snd (m s) = s) -> adds_one_attempt cfg m.
Proof.
  intros Hm s. exists []. rewrite Hm, app_nil_r. split; [reflexivity | by left].
Qed.

(** After [get_azure_token], one more request to the synthesis or catalog
    endpoint, or none, still makes one attempt. *)
Lemma after_token_one_attempt
    (cfg : config) (s s1 s2 : sys) (o : outcome string) :
  get_azure_token cfg s = (o, s1) ->
  (sent (env s2) = sent (env s1)
   \/ exists r, sent (env s2) = (sent (env s1) ++ [r])%list
                /\ (request_url r = tts_url cfg \/ request_url r = voices_url cfg)) ->
  exists calls,
    sent (env s2) = (sent (env s) ++ calls)%list /\ one_attempt cfg calls.
Proof.
  intros Hget Hs2.
  destruct (get_azure_token_effect cfg s) as [Hs1 _]. rewrite Hget in Hs1.
  simpl in Hs1.
  destruct Hs1 as [Hs1 | (key & _ & _ & Hs1)];
    destruct Hs2 as [Hs2 | (r & Hs2 & Hurl)]; rewrite Hs2, Hs1.
  - exists []. rewrite app_nil_r. split; [reflexivity | by left].
  - exists [r]. split; [reflexivity | right; left; by exists r].
  - eexists. split; [reflexivity | right; left; by eexists].
  - exists [issue_token_request cfg key; r]. rewrite <- app_assoc.
    split; [reflexivity | right; right; by exists key, r].
Qed.

Lemma synthesize_speech_azure_one_attempt (cfg : config) (txt voice : string) :
  adds_one_attempt cfg (synthesize_speech_azure cfg txt voice).
Proof.
  intros s. unfold synthesize_speech_azure, try_except, bind.
  destruct (get_azure_token cfg s) as [[token|e] s1] eqn:Hget.
  - apply (after_token_one_attempt cfg s s1 _ _ Hget). right.
    exists (tts_request cfg token voice txt). split; [|by left].
    unfold requests_call. case_answer; [|reflexivity]. case_status; reflexivity.
  - apply (after_token_one_attempt cfg s s1 _ _ Hget). by left.
Qed.

Lemma synthesize_speech_free_one_attempt (cfg : config) (txt : string) :
  adds_one_attempt cfg (synthesize_speech_free txt).
Proof.
  intros s. exists [free_tts_request txt].
  rewrite synthesize_speech_free_run. simpl.
  split; [reflexivity | right; left; by eexists].
Qed.

Lemma adapter_one_attempt (cfg : config) (txt voice : string) :
  adds_one_attempt cfg
    (if USE_FREE_TTS cfg || negb (truthy_opt (AZURE_SPEECH_KEY cfg))
     then synthesize_speech_free txt
     else synthesize_speech_azure cfg txt voice).
Proof.
  destruct (_ || _);
    [apply synthesize_speech_free_one_attempt
    | apply synthesize_speech_azure_one_attempt].
Qed.

Lemma text_to_speech_one_attempt (cfg : config) (args : gmap string string) :
  adds_one_attempt cfg (text_to_speech cfg args).
Proof.
  unfold text_to_speech.
  destruct (negb _); [by apply adds_nothing|].
  destruct (_ <? _)%nat; [by apply adds_nothing|].
  intros s. rewrite route_state. apply adapter_one_attempt.
Qed.

Lemma text_to_speech_post_one_attempt
    (cfg : config) (data : option (gmap string string)) :
  adds_one_attempt cfg (text_to_speech_post cfg data).
Proof.
  unfold text_to_speech_post.
  destruct data as [d|]; [|by apply adds_nothing].
  destruct (bool_decide _); [by apply adds_nothing|].
  destruct (d !! "text") as [txt|]; [|by apply adds_nothing].
  intros s. rewrite (route_state _ (fun audio_data => jsonify _)).
  apply adapter_one_attempt.
Qed.

Lemma get_available_voices_one_attempt (cfg : config) :
  adds_one_attempt cfg (get_available_voices cfg).
Proof.
  unfold get_available_voices.
  destruct (_ || _); [by apply adds_nothing|].
  intros s. unfold try_except, bind.
  destruct (get_azure_token cfg s) as [[token|e] s1] eqn:Hget.
  - apply (after_token_one_attempt cfg s s1 _ _ Hget). right.
    exists (voices_request cfg token). split; [|by right].
    unfold requests_call. case_answer; [|reflexivity]. case_status; [|reflexivity].
    unfold response_json. destruct (json_body response) as [msg|voices];
      [reflexivity|].
    unfold ret at 1. unfold lift_result.
    destruct (comprehension voices); reflexivity.
  - apply (after_token_one_attempt cfg s s1 _ _ Hget). by left.
Qed.

(** Whatever the state and the world, one operation (a method or a route)
    keeps the log of calls it found, adds at most two calls to it, and never
    two to the same address: an endpoint that failed is not tried again. *)
Theorem operations_make_at_most_two_calls
    (cfg : config) (op : operation) (s : sys) :
  exists calls,
    sent (env (run_operation cfg op s)) = (sent (env s) ++ calls)%list
    /\ (length calls <= 2)%nat
    /\ NoDup (map request_url calls).
Proof.
  assert (H : exists calls,
             sent (env (run_operation cfg op s)) = (sent (env s) ++ calls)%list
             /\ one_attempt cfg calls).
  { destruct op; simpl.
    - destruct (get_azure_token cfg s) as [o s1] eqn:Hget.
      apply (after_token_one_attempt cfg s s1 s1 o Hget). by left.
    - apply synthesize_speech_azure_one_attempt.
    - apply synthesize_speech_free_one_attempt.
    - exists []. rewrite app_nil_r. split; [reflexivity | by left].
    - apply text_to_speech_one_attempt.
    - apply text_to_speech_post_one_attempt.
    - apply get_available_voices_one_attempt.
    - exists []. rewrite app_nil_r. split; [reflexivity | by left]. }
  destruct H as (calls & Hsent & Hshape).
  exists calls. split; [exact Hsent|]. by apply (one_attempt_bound cfg).
Qed.

(** The bound is reached: a first paid request fetches a token and then
    synthesizes. *)
Example first_paid_request_makes_two_calls :
  calls_made (text_to_speech cfg_paid {[ "text" := "hello" ]})
    (boot (world_answering 200 0))
  = [issue_token_request cfg_paid "secret";
     tts_request cfg_paid "token-1" default_voice "hello"].
Proof. reflexivity. Qed.

(** ** The routes catch everything *)

Lemma caught_route_answers {A} (m : M A) (k : A -> http_response) (s : sys) :
  (forall a, well_formed_answer (k a)) ->
  exists r,
    fst (try_except (a <- m ;; ret (k a)) (fun e => ret (json_error (str_exn e) 500)) s)
    = Return r
    /\ well_formed_answer r.
Proof.
  intros Hk. unfold try_except, bind, ret.
  destruct (m s) as [[a|e] s1]; simpl; eexists; split; try reflexivity.
  - apply Hk.
  - unfold well_formed_answer. simpl. auto.
Qed.

Lemma json_error_well_formed (msg : string) (code : Z) :
  code = 400 \/ code = 500 -> well_formed_answer (json_error msg code).
Proof. unfold well_formed_answer. simpl. tauto. Qed.

(** No exception leaves [GET /speech] or [GET /voices]: whatever the query,
    the state and the world (a failing transport, any status, any body), each
    returns a response, which is audio with status 200 or JSON with status
    200, 400 or 500. *)
Theorem routes_never_raise
    (cfg : config) (s : sys) (args : gmap string string) :
  (exists r, fst (text_to_speech cfg args s) = Return r /\ well_formed_answer r)
  /\ (exists r, fst (get_available_voices cfg s) = Return r
                /\ well_formed_answer r).
Proof.
  split.
  - unfold text_to_speech.
    destruct (negb _);
      [eexists; split; [reflexivity | apply json_error_well_formed; auto]|].
    destruct (_ <? _)%nat;
      [eexists; split; [reflexivity | apply json_error_well_formed; auto]|].
    apply caught_route_answers. intros a. unfold well_formed_answer. simpl. auto.
  - unfold get_available_voices.
    destruct (_ || _).
    { eexists. split; [reflexivity|]. unfold well_formed_answer. simpl. auto. }
    unfold try_except, bind.
    destruct (get_azure_token cfg s) as [[token|e] s1];
      [|eexists; split; [reflexivity | apply json_error_well_formed; auto]].
    destruct (requests_call _ s1) as [[response|e] s2];
      [|eexists; split; [reflexivity | apply json_error_well_formed; auto]].
    destruct (status_code response =? 200);
      [|eexists; split; [reflexivity | apply json_error_well_formed; auto]].
    unfold response_json.
    destruct (json_body response) as [msg|voices];
      [eexists; split; [reflexivity | apply json_error_well_formed; auto]|].
    unfold ret at 1. unfold lift_result.
    destruct (comprehension voices) as [e|english];
      [eexists; split; [reflexivity | apply json_error_well_formed; auto]|].
    eexists. split; [reflexivity|]. unfold well_formed_answer. simpl. auto.
Qed.

(** ** [GET /speech]: validation and the free path end to end *)

(** A missing, empty or over-long [text] is answered 400 at once: nothing is
    sent and neither the object nor the world changes. *)
Theorem text_to_speech_rejects_bad_text
    (cfg : config) (args : gmap string string) (s : sys) :
  default "" (args !! "text") = ""
  \/ (1000 < String.length (default "" (args !! "text")))%nat ->
  exists msg, text_to_speech cfg args s = (Return (json_error msg 400), s).
Proof.
  intros [Hempty | Hlong].
  - eexists. by apply text_to_speech_rejects_empty.
  - destruct (args !! "text") as [txt|] eqn:Harg; [|simpl in Hlong; lia].
    eexists. by apply (text_to_speech_rejects_long cfg args txt).
Qed.

Lemma text_to_speech_rejects_bad_text_witness :
  (exists msg, text_to_speech cfg_paid ∅ (boot (world_answering 200 0))
               = (Return (json_error msg 400), boot (world_answering 200 0)))
  /\ (exists msg, text_to_speech cfg_paid {[ "text" := letters 1001 ]}
                    (boot (world_answering 200 0))
                  = (Return (json_error msg 400), boot (world_answering 200 0))).
Proof.
  split.
  - apply (text_to_speech_rejects_bad_text cfg_paid ∅). left. reflexivity.
  - apply (text_to_speech_rejects_bad_text cfg_paid {[ "text" := letters 1001 ]}).
    right. apply Nat.ltb_lt. vm_compute. reflexivity.
Defined.

(** With the free adapter selected, the answer to a valid [GET /speech] is
    decided by the answer to the one request sent: status 200 gives the body
    back as [audio/mpeg]; any other status, and a transport failure, give a
    500 whose message names the status or repeats the transport's message
    behind [Free TTS failed: ].  The object is not touched. *)
Theorem text_to_speech_free_outcome
    (cfg : config) (args : gmap string string) (txt : string) (s : sys) :
  args !! "text" = Some txt -> txt <> "" -> (String.length txt <= 1000)%nat ->
  USE_FREE_TTS cfg || negb (credentials_configured cfg) = true ->
  fst (text_to_speech cfg args s)
  = Return
      match upstream (env s) (length (sent (env s))) (free_tts_request txt) with
      | Answered response =>
          if status_code response =? 200 then
            {| body := FileBody (content response) "audio/mpeg" "speech.mp3";
               status := 200 |}
          else
            json_error ("Free TTS failed: Free TTS error: "
                        ++ str_int (status_code response)) 500
      | Failed msg => json_error ("Free TTS failed: " ++ msg) 500
      end
  /\ calls_made (text_to_speech cfg args) s = [free_tts_request txt]
  /\ tts_api (snd (text_to_speech cfg args s)) = tts_api s.
Proof.
  unfold credentials_configured. intros Harg Hne Hlen Hfree.
  split; [|split].
  - rewrite (text_to_speech_valid cfg args txt s Harg Hne Hlen). rewrite Hfree.
    unfold synthesize_speech_free. run_monad.
    case_answer; [|reflexivity]. case_status; reflexivity.
  - unfold calls_made.
    rewrite (text_to_speech_state cfg args txt s Harg Hne Hlen). rewrite Hfree.
    apply synthesize_speech_free_calls.
  - rewrite (text_to_speech_state cfg args txt s Harg Hne Hlen). rewrite Hfree.
    by rewrite synthesize_speech_free_run.
Qed.

Lemma text_to_speech_free_outcome_witness :
  fst (text_to_speech cfg_no_key {[ "text" := "hello" ]} (boot (world_answering 200 0)))
  = Return {| body := FileBody riff "audio/mpeg" "speech.mp3"; status := 200 |}
  /\ fst (text_to_speech cfg_forced_free {[ "text" := "hello" ]}
            (boot (world_answering 503 0)))
     = Return (json_error "Free TTS failed: Free TTS error: 503" 500)
  /\ calls_made (text_to_speech cfg_forced_free {[ "text" := "hello" ]})
       (boot (world_answering 503 0))
     = [free_tts_request "hello"].
Proof.
  split; [|split].
  - apply (text_to_speech_free_outcome cfg_no_key {[ "text" := "hello" ]} "hello"
             (boot (world_answering 200 0)));
      first [ reflexivity | discriminate | simpl; lia ].
  - apply (text_to_speech_free_outcome cfg_forced_free {[ "text" := "hello" ]} "hello"
             (boot (world_answering 503 0)));
      first [ reflexivity | discriminate | simpl; lia ].
  - apply (text_to_speech_free_outcome cfg_forced_free {[ "text" := "hello" ]} "hello"
             (boot (world_answering 503 0)));
      first [ reflexivity | discriminate | simpl; lia ].
Defined.

(** ** More on the token cache *)

Lemma get_azure_token_without_key (cfg : config) (s : sys) :
  credentials_configured cfg = false ->
  get_azure_token cfg s = (Raise (Exception "Azure Speech Key not configured"), s).
Proof.
  unfold credentials_configured, get_azure_token.
  destruct (AZURE_SPEECH_KEY cfg) as [key|]; [|reflexivity].
  simpl. by intros ->.
Qed.

(** A call that returns leaves exactly the returned token in the cache, with
    an expiry after the last reading of the clock. *)
Lemma get_azure_token_success_state (cfg : config) (s s' : sys) (tok : string) :
  get_azure_token cfg s = (Return tok, s') ->
  azure_token (tts_api s') = Some tok
  /\ exists exp, token_expiry (tts_api s') = Some exp
                 /\ clock (env s') (Nat.pred (reads (env s'))) < exp.
Proof.
  intros Hget.
  destruct (AZURE_SPEECH_KEY cfg) as [key|] eqn:Hkey;
    [|unfold get_azure_token in Hget; rewrite Hkey in Hget; discriminate].
  destruct (truthy key) eqn:Hk;
    [|unfold get_azure_token in Hget; rewrite Hkey, Hk in Hget; discriminate].
  apply truthy_true in Hk.
  destruct (token_is_fresh_spec s)
    as (b & s1 & Hfresh & Hapi & Hsent & Hup & Hclock & Hb).
  destruct b.
  - destruct Hb as [Hb _].
    destruct (Hb eq_refl) as (tok' & exp & Ht & Hne & He & Hlt).
    rewrite (get_azure_token_hit cfg s key tok' exp Hkey Hk Ht Hne He Hlt) in Hget.
    injection Hget as <- <-. simpl. eauto.
  - rewrite (get_azure_token_miss cfg s s1 key Hkey Hk Hfresh) in Hget.
    destruct (upstream (env s1) _ _) as [response|msg]; [|discriminate].
    destruct (status_code response =? 200); [|discriminate].
    injection Hget as <- <-. simpl. split; [reflexivity|].
    eexists. split; [reflexivity|]. unfold timedelta_minutes. lia.
Qed.

(** Whenever [get_azure_token] returns a token, that token is the one now
    cached, and its cached expiry lies strictly after the instant the call
    last read from the clock: what is handed out has not expired yet. *)
Theorem returned_token_is_cached_and_valid
    (cfg : config) (s s' : sys) (tok : string) :
  get_azure_token cfg s = (Return tok, s') ->
  credentials_configured cfg = true
  /\ azure_token (tts_api s') = Some tok
  /\ exists exp, token_expiry (tts_api s') = Some exp
                 /\ clock (env s') (Nat.pred (reads (env s'))) < exp.
Proof.
  intros Hget. split; [|exact (get_azure_token_success_state cfg s s' tok Hget)].
  unfold credentials_configured.
  destruct (truthy_opt (AZURE_SPEECH_KEY cfg)) eqn:Hcred; [reflexivity|].
  rewrite get_azure_token_without_key in Hget by exact Hcred. discriminate.
Qed.

Lemma returned_token_is_cached_and_valid_witness :
  credentials_configured cfg_paid = true
  /\ azure_token (tts_api (snd (get_azure_token cfg_paid (boot (world_answering 200 1000)))))
     = Some "token-1"
  /\ exists exp,
       token_expiry
         (tts_api (snd (get_azure_token cfg_paid (boot (world_answering 200 1000)))))
       = Some exp
       /\ clock (env (snd (get_azure_token cfg_paid (boot (world_answering 200 1000)))))
            (Nat.pred
               (reads (env (snd (get_azure_token cfg_paid
                                   (boot (world_answering 200 1000)))))))
          < exp.
Proof.
  apply (returned_token_is_cached_and_valid cfg_paid
           (boot (world_answering 200 1000))).
  reflexivity.
Defined.

(** Two calls in a row: when the first returns a non-empty token and the
    second reads the clock before the cached expiry, the second returns the
    same token, sends nothing and leaves the object as it is. *)
Theorem second_call_reuses_token
    (cfg : config) (s s1 : sys) (tok : string) (exp : Z) :
  get_azure_token cfg s = (Return tok, s1) -> tok <> "" ->
  token_expiry (tts_api s1) = Some exp ->
  clock (env s1) (reads (env s1)) < exp ->
  fst (get_azure_token cfg s1) = Return tok
  /\ calls_made (get_azure_token cfg) s1 = []
  /\ tts_api (snd (get_azure_token cfg s1)) = tts_api s1.
Proof.
  intros Hget Hne Hexp Hlt.
  destruct (get_azure_token_success_state cfg s s1 tok Hget) as [Htok _].
  destruct (AZURE_SPEECH_KEY cfg) as [key|] eqn:Hkey;
    [|unfold get_azure_token in Hget; rewrite Hkey in Hget; discriminate].
  destruct (truthy key) eqn:Hk;
    [|unfold get_azure_token in Hget; rewrite Hkey, Hk in Hget; discriminate].
  apply truthy_true in Hk.
  pose proof (get_azure_token_hit cfg s1 key tok exp Hkey Hk Htok Hne Hexp Hlt) as Hhit.
  rewrite Hhit. repeat split.
  apply calls_made_none. by rewrite Hhit.
Qed.

(** A token fetched at time 1000 is reused at the next reading. *)
Lemma second_call_reuses_token_witness :
  fst (get_azure_token cfg_paid
         (snd (get_azure_token cfg_paid (boot (world_answering 200 1000)))))
  = Return "token-1"
  /\ calls_made (get_azure_token cfg_paid)
       (snd (get_azure_token cfg_paid (boot (world_answering 200 1000)))) = []
  /\ tts_api (snd (get_azure_token cfg_paid
                     (snd (get_azure_token cfg_paid (boot (world_answering 200 1000))))))
     = tts_api (snd (get_azure_token cfg_paid (boot (world_answering 200 1000)))).
Proof.
  apply (second_call_reuses_token cfg_paid (boot (world_answering 200 1000))
           (snd (get_azure_token cfg_paid (boot (world_answering 200 1000))))
           "token-1" 540001000);
    first [ reflexivity | discriminate | simpl; lia ].
Defined.

(** When the transport fails on the issuance request, the exception of
    [requests] leaves [get_azure_token] as it is (no wrapping), one call has
    been made and nothing is cached. *)
Theorem issuance_transport_failure
    (cfg : config) (s s1 : sys) (key msg : string) :
  AZURE_SPEECH_KEY cfg = Some key -> key <> "" ->
  token_is_fresh (tts_api s) s = (Return false, s1) ->
  upstream (env s1) (length (sent (env s1))) (issue_token_request cfg key)
    = Failed msg ->
  fst (get_azure_token cfg s) = Raise (RequestException msg)
  /\ calls_made (get_azure_token cfg) s = [issue_token_request cfg key]
  /\ tts_api (snd (get_azure_token cfg s)) = tts_api s.
Proof.
  intros Hkey Hk Hfresh Hfail.
  pose proof (get_azure_token_miss cfg s s1 key Hkey Hk Hfresh) as Hget.
  simpl in Hget. rewrite Hfail in Hget.
  destruct (token_is_fresh_spec s) as (b & s1' & Hfresh' & Hapi & Hsent & _).
  rewrite Hfresh in Hfresh'. injection Hfresh' as _ <-.
  rewrite Hget. simpl. repeat split; [|exact Hapi].
  apply calls_made_one. by rewrite Hget, <- Hsent.
Qed.

Lemma issuance_transport_failure_witness :
  fst (get_azure_token cfg_paid (boot (world_offline 0)))
  = Raise (RequestException "connection refused")
  /\ calls_made (get_azure_token cfg_paid) (boot (world_offline 0))
     = [issue_token_request cfg_paid "secret"]
  /\ tts_api (snd (get_azure_token cfg_paid (boot (world_offline 0)))) = init.
Proof.
  apply (issuance_transport_failure cfg_paid (boot (world_offline 0))
           (boot (world_offline 0)) "secret" "connection refused");
    first [ reflexivity | discriminate ].
Defined.

(** ** [POST /speech] on the paid path, end to end *)

(** A refused token request surfaces as a 500 whose message carries both
    prefixes and the upstream status; the synthesis request is never sent
    and nothing is cached. *)
Theorem post_speech_token_refused
    (cfg : config) (d : gmap string string) (txt key : string) (s s1 : sys)
    (response : http_reply) :
  AZURE_SPEECH_KEY cfg = Some key -> key <> "" -> USE_FREE_TTS cfg = false ->
  d !! "text" = Some txt ->
  token_is_fresh (tts_api s) s = (Return false, s1) ->
  upstream (env s1) (length (sent (env s1))) (issue_token_request cfg key)
    = Answered response ->
  status_code response <> 200 ->
  fst (text_to_speech_post cfg (Some d) s)
  = Return (json_error ("Azure synthesis failed: Failed to get Azure token: "
                        ++ str_int (status_code response)) 500)
  /\ calls_made (text_to_speech_post cfg (Some d)) s = [issue_token_request cfg key]
  /\ tts_api (snd (text_to_speech_post cfg (Some d) s)) = tts_api s.
Proof.
  intros Hkey Hk Hfree Hd Hfresh Hans Hcode.
  pose proof (get_azure_token_miss cfg s s1 key Hkey Hk Hfresh) as Hget.
  simpl in Hget. rewrite Hans in Hget.
  apply Z.eqb_neq in Hcode. rewrite Hcode in Hget.
  destruct (token_is_fresh_spec s) as (b & s1' & Hfresh' & Hapi & Hsent & _).
  rewrite Hfresh in Hfresh'. injection Hfresh' as _ <-.
  assert (Hrun : text_to_speech_post cfg (Some d) s
                 = (Return (json_error
                      ("Azure synthesis failed: Failed to get Azure token: "
                       ++ str_int (status_code response)) 500),
                    {| tts_api := tts_api s1;
                       env := {| clock := clock (env s1); reads := reads (env s1);
                                 upstream := upstream (env s1);
                                 sent := sent (env s1) ++ [issue_token_request cfg key]
                              |} |})).
  { rewrite (text_to_speech_post_with_text cfg d txt Hd). cbv zeta.
    rewrite Hkey, Hfree. apply truthy_true in Hk. simpl. rewrite Hk. simpl.
    unfold synthesize_speech_azure, try_except, bind. rewrite Hget. reflexivity. }
  split; [by rewrite Hrun|]. split; [|by rewrite Hrun].
  apply calls_made_one. rewrite Hrun. simpl. by rewrite Hsent.
Qed.

Lemma post_speech_token_refused_witness :
  fst (text_to_speech_post cfg_paid (Some {[ "text" := "hello" ]})
         (boot (world_answering 401 0)))
  = Return (json_error "Azure synthesis failed: Failed to get Azure token: 401" 500)
  /\ calls_made (text_to_speech_post cfg_paid (Some {[ "text" := "hello" ]}))
       (boot (world_answering 401 0))
     = [issue_token_request cfg_paid "secret"]
  /\ tts_api (snd (text_to_speech_post cfg_paid (Some {[ "text" := "hello" ]})
                     (boot (world_answering 401 0))))
     = init.
Proof.
  apply (post_speech_token_refused cfg_paid {[ "text" := "hello" ]} "hello" "secret"
           (boot (world_answering 401 0)) (boot (world_answering 401 0))
           (reply_with 401));
    first [ reflexivity | discriminate ].
Defined.

(** With a fresh token cached, exactly one request is sent whatever the
    answer to it: the synthesis request, which carries the cached token as
    bearer and the voice of the body (the default voice when the body names
    none) around the text; the object is not touched.  When that request is
    answered 200, the response is the success envelope labelled with that
    voice. *)
Theorem post_speech_with_cached_token
    (cfg : config) (d : gmap string string) (txt key tok : string) (exp : Z)
    (s : sys) :
  AZURE_SPEECH_KEY cfg = Some key -> key <> "" -> USE_FREE_TTS cfg = false ->
  d !! "text" = Some txt ->
  azure_token (tts_api s) = Some tok -> tok <> "" ->
  token_expiry (tts_api s) = Some exp ->
  clock (env s) (reads (env s)) < exp ->
  let voice := default "en-US-JennyNeural" (d !! "voice") in
  calls_made (text_to_speech_post cfg (Some d)) s = [tts_request cfg tok voice txt]
  /\ tts_api (snd (text_to_speech_post cfg (Some d) s)) = tts_api s
  /\ forall response,
       upstream (env s) (length (sent (env s))) (tts_request cfg tok voice txt)
         = Answered response ->
       status_code response = 200 ->
       fst (text_to_speech_post cfg (Some d) s)
       = Return (jsonify (JObj
           [("status", JStr "success");
            ("text", JStr txt);
            ("audio_format", JStr "mp3");
            ("audio_data",
             JStr (string_of_list_byte (b64encode (content response))));
            ("voice", JStr voice)])).
Proof.
  intros Hkey Hk Hfree Hd Htok Hne Hexp Hlt voice.
  pose proof (get_azure_token_hit cfg s key tok exp Hkey Hk Htok Hne Hexp Hlt) as Hget.
  pose proof (synthesize_speech_azure_with_token cfg txt voice tok s _ Hget) as Hsyn.
  cbv zeta in Hsyn. cbn [datetime_now snd env tts_api sent clock reads upstream] in Hsyn.
  pose proof (text_to_speech_post_state cfg d txt s Hd) as Hstate.
  rewrite Hkey, Hfree in Hstate. apply truthy_true in Hk.
  cbn [orb negb truthy_opt] in Hstate. rewrite Hk in Hstate. cbn [negb] in Hstate.
  fold voice in Hstate.
  split; [|split].
  - apply calls_made_one. rewrite Hstate, Hsyn.
    case_answer; [|reflexivity]. case_status; reflexivity.
  - rewrite Hstate, Hsyn.
    case_answer; [|reflexivity]. case_status; reflexivity.
  - intros response Hans Hcode. rewrite Hans, Hcode in Hsyn.
    epose proof (text_to_speech_post_success cfg d txt s _ (content response) Hd)
      as Hpost.
    rewrite Hkey, Hfree in Hpost.
    cbn [orb negb truthy_opt] in Hpost. rewrite Hk in Hpost.
    cbn [negb] in Hpost. specialize (Hpost Hsyn). by rewrite Hpost.
Qed.

Lemma post_speech_with_cached_token_witness :
  calls_made (text_to_speech_post cfg_paid
                (Some (<[ "voice" := "en-GB-RyanNeural" ]> {[ "text" := "hello" ]})))
    (holding_token 5000 (world_answering 503 1000))
  = [tts_request cfg_paid "token-0" "en-GB-RyanNeural" "hello"]
  /\ fst (text_to_speech_post cfg_paid
            (Some (<[ "voice" := "en-GB-RyanNeural" ]> {[ "text" := "hello" ]}))
            (holding_token 5000 (world_answering 200 1000)))
     = Return (jsonify (JObj
         [("status", JStr "success");
          ("text", JStr "hello");
          ("audio_format", JStr "mp3");
          ("audio_data", JStr "UklGRg==");
          ("voice", JStr "en-GB-RyanNeural")])).
Proof.
  split.
  - exact (proj1 (post_speech_with_cached_token cfg_paid
             (<[ "voice" := "en-GB-RyanNeural" ]> {[ "text" := "hello" ]})
             "hello" "secret" "token-0" 5000
             (holding_token 5000 (world_answering 503 1000))
             eq_refl ltac:(discriminate) eq_refl eq_refl eq_refl
             ltac:(discriminate) eq_refl ltac:(simpl; lia))).
  - apply (proj2 (proj2 (post_speech_with_cached_token cfg_paid
             (<[ "voice" := "en-GB-RyanNeural" ]> {[ "text" := "hello" ]})
             "hello" "secret" "token-0" 5000
             (holding_token 5000 (world_answering 200 1000))
             eq_refl ltac:(discriminate) eq_refl eq_refl eq_refl
             ltac:(discriminate) eq_refl ltac:(simpl; lia)))
             (reply_with 200) eq_refl eq_refl).
Defined.

(** ** The two speech routes agree *)

(** A [POST /speech] without a [voice] field does what [GET /speech] does
    with the same valid text: same calls, same final state; where [GET]
    answers audio, [POST] answers the success envelope holding the base64
    of that audio, and where [GET] answers an error, [POST] answers the same
    error. *)
Theorem post_without_voice_mirrors_get
    (cfg : config) (args d : gmap string string) (txt : string) (s : sys) :
  args !! "text" = Some txt -> txt <> "" -> (String.length txt <= 1000)%nat ->
  d !! "text" = Some txt -> d !! "voice" = None ->
  snd (text_to_speech_post cfg (Some d) s) = snd (text_to_speech cfg args s)
  /\ exists r_get r_post,
       fst (text_to_speech cfg args s) = Return r_get
       /\ fst (text_to_speech_post cfg (Some d) s) = Return r_post
       /\ match body r_get with
          | FileBody audio _ _ =>
              status r_post = 200
              /\ response_field "audio_data" r_post
                 = Some (JStr (string_of_list_byte (b64encode audio)))
              /\ response_field "text" r_post = Some (JStr txt)
          | JsonBody _ => r_post = r_get
          end.
Proof.
  intros Harg Hne Hlen Hd Hvoice.
  rewrite (text_to_speech_valid cfg args txt s Harg Hne Hlen).
  rewrite (text_to_speech_post_with_text cfg d txt Hd). rewrite Hvoice.
  cbv zeta. simpl default. fold default_voice.
  unfold try_except, bind, ret.
  destruct ((if USE_FREE_TTS cfg || negb (truthy_opt (AZURE_SPEECH_KEY cfg))
             then synthesize_speech_free txt
             else synthesize_speech_azure cfg txt default_voice) s)
    as [[audio|e] s1]; simpl.
  - split; [reflexivity|]. eexists _, _. repeat split.
  - split; [reflexivity|]. eexists _, _. repeat split.
Qed.

Lemma post_without_voice_mirrors_get_witness :
  snd (text_to_speech_post cfg_paid (Some {[ "text" := "hello" ]})
         (boot (world_answering 200 0)))
  = snd (text_to_speech cfg_paid {[ "text" := "hello" ]} (boot (world_answering 200 0))).
Proof.
  apply (post_without_voice_mirrors_get cfg_paid {[ "text" := "hello" ]}
           {[ "text" := "hello" ]} "hello" (boot (world_answering 200 0)));
    first [ reflexivity | discriminate | simpl; lia ].
Defined.

(** ** [GET /health] tells which adapter serves *)

(** [GET /voices] answers with the fixed notice exactly when the test of
    line 180 holds: no answer on the paid path looks like the notice. *)
Lemma voices_notice_iff (cfg : config) (s : sys) :
  fst (get_available_voices cfg s) = Return (jsonify free_voices_notice)
  <-> USE_FREE_TTS cfg || negb (truthy_opt (AZURE_SPEECH_KEY cfg)) = true.
Proof.
  unfold get_available_voices.
  destruct (USE_FREE_TTS cfg || negb (truthy_opt (AZURE_SPEECH_KEY cfg))).
  { split; reflexivity. }
  split; [|discriminate]. unfold try_except, bind.
  destruct (get_azure_token cfg s) as [[token|e] s1]; [|discriminate].
  destruct (requests_call _ s1) as [[response|e] s2]; [|discriminate].
  destruct (status_code response =? 200); [|discriminate].
  unfold response_json.
  destruct (json_body response) as [msg|voices]; [discriminate|].
  unfold ret at 1. unfold lift_result.
  destruct (comprehension voices) as [e|english]; discriminate.
Qed.

(** The flag reported by [GET /health] is true exactly when a valid
    [GET /speech] is served by the free adapter, and exactly when
    [GET /voices] answers with the fixed notice; it is false exactly when
    [GET /speech] is served by the paid adapter. *)
Theorem health_check_agrees_with_routes
    (cfg : config) (args : gmap string string) (txt : string) (s : sys) :
  args !! "text" = Some txt -> txt <> "" -> (String.length txt <= 1000)%nat ->
  (response_field "using_free_tts" (health_check cfg) = Some (JBool true)
   <-> handled_by_fallback txt (calls_made (text_to_speech cfg args) s))
  /\ (response_field "using_free_tts" (health_check cfg) = Some (JBool true)
      <-> fst (get_available_voices cfg s) = Return (jsonify free_voices_notice))
  /\ (response_field "using_free_tts" (health_check cfg) = Some (JBool false)
      <-> handled_by_primary cfg (calls_made (text_to_speech cfg args) s)).
Proof.
  intros Harg Hne Hlen.
  destruct (selection_calls cfg s txt default_voice) as [Hprim Hfall].
  pose proof (voices_notice_iff cfg s) as Hvoices.
  unfold calls_made in *.
  rewrite (text_to_speech_state cfg args txt s Harg Hne Hlen).
  unfold health_check, response_field, credentials_configured in *.
  cbn [body jsonify dict_get String.eqb Ascii.eqb Bool.eqb] in *.
  destruct (USE_FREE_TTS cfg); destruct (truthy_opt (AZURE_SPEECH_KEY cfg));
    cbn [orb andb negb] in *.
  all: split; [|split].
  all: split; intros H; try reflexivity; try discriminate H.
  all: try (apply Hfall; reflexivity); try (apply Hprim; reflexivity);
       try (apply Hvoices; reflexivity).
  all: try (apply Hfall in H; discriminate H);
       try (apply Hprim in H; discriminate H);
       try (apply Hvoices in H; discriminate H).
Qed.

Lemma health_check_agrees_with_routes_witness :
  (response_field "using_free_tts" (health_check cfg_forced_free) = Some (JBool true)
   <-> handled_by_fallback "hello"
         (calls_made (text_to_speech cfg_forced_free {[ "text" := "hello" ]})
            (boot (world_answering 200 0))))
  /\ (response_field "using_free_tts" (health_check cfg_paid) = Some (JBool false)
      <-> handled_by_primary cfg_paid
            (calls_made (text_to_speech cfg_paid {[ "text" := "hello" ]})
               (boot (world_answering 200 0)))).
Proof.
  split.
  - apply (health_check_agrees_with_routes cfg_forced_free {[ "text" := "hello" ]}
             "hello" (boot (world_answering 200 0)));
      first [ reflexivity | discriminate | simpl; lia ].
  - apply (health_check_agrees_with_routes cfg_paid {[ "text" := "hello" ]}
             "hello" (boot (world_answering 200 0)));
      first [ reflexivity | discriminate | simpl; lia ].
Defined.

(** ** Without a key nothing is ever cached and only the free endpoint is called *)

Definition free_call (r : http_request) : Prop :=
  exists txt, r = free_tts_request txt.

Lemma run_operation_without_key (cfg : config) (op : operation) (s : sys) :
  credentials_configured cfg = false ->
  tts_api (run_operation cfg op s) = tts_api s
  /\ (sent (env (run_operation cfg op s)) = sent (env s)
      \/ exists txt,
           sent (env (run_operation cfg op s))
           = (sent (env s) ++ [free_tts_request txt])%list).
Proof.
  intros Hcred. pose proof Hcred as Hcred'. unfold credentials_configured in Hcred'.
  destruct op; simpl.
  - rewrite get_azure_token_without_key by assumption. simpl. auto.
  - unfold synthesize_speech_azure, try_except, bind.
    rewrite get_azure_token_without_key by assumption. simpl. auto.
  - rewrite synthesize_speech_free_run. simpl. eauto.
  - auto.
  - unfold text_to_speech.
    destruct (negb _); [simpl; auto|].
    destruct (_ <? _)%nat; [simpl; auto|].
    rewrite route_state. rewrite Hcred', orb_true_r.
    rewrite synthesize_speech_free_run. simpl. eauto.
  - unfold text_to_speech_post.
    destruct data as [d|]; [|simpl; auto].
    destruct (bool_decide _); [simpl; auto|].
    destruct (d !! "text") as [txt|]; [|simpl; auto].
    rewrite (route_state _ (fun audio_data => jsonify _)).
    rewrite Hcred', orb_true_r.
    rewrite synthesize_speech_free_run. simpl. eauto.
  - unfold get_available_voices. rewrite Hcred', orb_true_r. simpl. auto.
  - auto.
Qed.

(** With the key unset or empty, whatever methods and routes run and
    whatever the world answers, the object stays as [__init__] left it and
    every call ever made is a request of the free adapter: the paid
    endpoints are never contacted. *)
Theorem without_key_nothing_is_cached
    (cfg : config) (w : world) (ops : list operation) :
  credentials_configured cfg = false -> sent w = [] ->
  tts_api (run cfg ops (boot w)) = init
  /\ Forall free_call (sent (env (run cfg ops (boot w)))).
Proof.
  intros Hcred Hsent.
  induction ops as [|op ops [IHapi IHsent]] using rev_ind.
  - simpl. rewrite Hsent. split; [reflexivity | constructor].
  - rewrite run_snoc.
    destruct (run_operation_without_key cfg op (run cfg ops (boot w)) Hcred)
      as [Hapi [Hsame | (txt & Hadd)]].
    + rewrite Hapi, Hsame. by split.
    + rewrite Hapi, Hadd. split; [exact IHapi|].
      apply Forall_app. split; [exact IHsent|].
      constructor; [by exists txt | constructor].
Qed.

Lemma without_key_nothing_is_cached_witness :
  tts_api (run cfg_no_key
             [OpGetSpeech {[ "text" := "hello" ]}; OpVoices; OpGetToken;
              OpPostSpeech (Some {[ "text" := "hi" ]})]
             (boot (world_answering 200 0)))
  = init
  /\ Forall free_call
       (sent (env (run cfg_no_key
                     [OpGetSpeech {[ "text" := "hello" ]}; OpVoices; OpGetToken;
                      OpPostSpeech (Some {[ "text" := "hi" ]})]
                     (boot (world_answering 200 0))))).
Proof.
  apply (without_key_nothing_is_cached cfg_no_key (world_answering 200 0)
           [OpGetSpeech {[ "text" := "hello" ]}; OpVoices; OpGetToken;
            OpPostSpeech (Some {[ "text" := "hi" ]})]);
    reflexivity.
Defined.

(** ** The list comprehension of [GET /voices] *)

(** An item the comprehension can handle: a dict with a string [Locale]. *)
Definition entry_with_locale (v : json) : Prop :=
  exists fields locale, v = JObj fields /\ dict_get "Locale" fields = Some (JStr locale).

Definition english_entry (v : json) : bool :=
  match v with
  | JObj fields => has_english_locale fields
  | _ => false
  end.

Lemma locale_is_english_inr (v : json) (keep : bool) :
  locale_is_english v = inr keep ->
  entry_with_locale v /\ keep = english_entry v.
Proof.
  unfold locale_is_english, getitem_Locale, entry_with_locale, english_entry,
    has_english_locale.
  destruct v as [| | | | | |fields]; try discriminate.
  destruct (dict_get "Locale" fields) as [j|] eqn:Hd; [|discriminate].
  destruct j; try discriminate. intros [= <-]. split; [|reflexivity].
  by eexists _, _.
Qed.

Lemma locale_is_english_entry (v : json) :
  entry_with_locale v -> locale_is_english v = inr (english_entry v).
Proof.
  intros (fields & locale & -> & Hv).
  unfold locale_is_english, getitem_Locale, english_entry, has_english_locale.
  by rewrite Hv.
Qed.

Lemma locale_is_english_inl (v : json) (e : exn) :
  locale_is_english v = inl e ->
  (exists msg, e = TypeError msg) \/ e = KeyError "Locale"
  \/ (exists msg, e = AttributeError msg).
Proof.
  unfold locale_is_english, getitem_Locale.
  destruct v as [| | | | | |fields]; try (intros [= <-]; left; by eexists).
  destruct (dict_get "Locale" fields) as [j|]; [|intros [= <-]; auto].
  destruct j; try discriminate; intros [= <-]; right; right; by eexists.
Qed.

Lemma english_voices_spec (items l : list json) :
  english_voices items = inr l
  <-> Forall entry_with_locale items /\ l = List.filter english_entry items.
Proof.
  revert l. induction items as [|v rest IH]; intros l; simpl.
  - split; [intros [= <-]; by split | intros [_ ->]; reflexivity].
  - split.
    + destruct (locale_is_english v) as [e|keep] eqn:Hv; [discriminate|].
      apply locale_is_english_inr in Hv as [Hentry ->].
      destruct (english_voices rest) as [e|tail]; [discriminate|].
      destruct (IH tail) as [[Hrest ->] _]; [reflexivity|].
      intros [= <-]. split; [by constructor | reflexivity].
    + intros [Hall ->]. inversion Hall as [|v' rest' Hentry Hrest]; subst.
      rewrite (locale_is_english_entry v Hentry).
      assert (Htail : english_voices rest = inr (List.filter english_entry rest))
        by (apply IH; by split).
      by rewrite Htail.
Qed.

Lemma english_voices_inl (items : list json) (e : exn) :
  english_voices items = inl e ->
  (exists msg, e = TypeError msg) \/ e = KeyError "Locale"
  \/ (exists msg, e = AttributeError msg).
Proof.
  induction items as [|v rest IH]; simpl; [discriminate|].
  destruct (locale_is_english v) as [e'|keep] eqn:Hv.
  - intros [= <-]. by apply (locale_is_english_inl v).
  - destruct (english_voices rest) as [e'|tail]; [|discriminate].
    intros [= <-]. by apply IH.
Qed.

(** On a body that is a JSON array, the comprehension succeeds exactly when
    every entry is an object with a string [Locale], and then it is the
    filter on the [en-] prefix.  On any other body it succeeds only for the
    empty object and the empty string, with an empty result.  When it
    fails, it fails with a [TypeError] (a body that cannot be iterated, an
    entry that is not an object), with the [KeyError] of a missing [Locale],
    or with the [AttributeError] of a [Locale] that is not a string. *)
Theorem english_voices_characterised (voices : json) :
  (forall items l,
     voices = JArr items ->
     (comprehension voices = inr l
      <-> Forall entry_with_locale items /\ l = List.filter english_entry items))
  /\ (forall l,
        (forall items, voices <> JArr items) ->
        comprehension voices = inr l ->
        l = [] /\ (voices = JObj [] \/ voices = JStr ""))
  /\ (forall e,
        comprehension voices = inl e ->
        (exists msg, e = TypeError msg) \/ e = KeyError "Locale"
        \/ (exists msg, e = AttributeError msg)).
Proof.
  split; [|split].
  - intros items l ->. unfold comprehension. simpl. apply english_voices_spec.
  - intros l Hnot. unfold comprehension.
    destruct voices as [| | | |str|items|fields]; simpl; try discriminate.
    + destruct str as [|c str]; simpl; [intros [= <-]; auto | discriminate].
    + by destruct (Hnot items).
    + destruct fields as [|[k v] fields]; simpl; [intros [= <-]; auto | discriminate].
  - intros e. unfold comprehension.
    destruct (iterate voices) as [e'|items] eqn:Hiter.
    + intros [= <-]. left.
      destruct voices; simpl in Hiter; try discriminate;
        injection Hiter as <-; by eexists.
    + apply english_voices_inl.
Qed.

(** ** [GET /voices] when something goes wrong on the paid path *)

(** With the paid provider selected, the answer of [GET /voices] is decided
    as follows, and every failure is a 500 with a JSON message.  A failed
    token acquisition is reported with the message of that very exception
    (this route adds no prefix).  With a token in hand: a transport failure
    of the catalog request is reported with its message; an answer with
    another status than 200 as [Failed to fetch voices]; a body that does
    not parse, and a body the comprehension raises on, with the message of
    the exception; only a parsed body the comprehension accepts gives 200
    with its first ten English entries. *)
Theorem voices_failures (cfg : config) (s : sys) :
  credentials_configured cfg = true -> USE_FREE_TTS cfg = false ->
  (forall e, fst (get_azure_token cfg s) = Raise e ->
     get_available_voices cfg s
     = (Return (json_error (str_exn e) 500), snd (get_azure_token cfg s)))
  /\ (forall token s1,
        get_azure_token cfg s = (Return token, s1) ->
        fst (get_available_voices cfg s)
        = Return
            match upstream (env s1) (length (sent (env s1)))
                    (voices_request cfg token) with
            | Failed msg => json_error msg 500
            | Answered response =>
                if status_code response =? 200 then
                  match json_body response with
                  | JsonFails msg => json_error msg 500
                  | JsonValue voices =>
                      match comprehension voices with
                      | inl e => json_error (str_exn e) 500
                      | inr english => jsonify (JArr (firstn 10 english))
                      end
                  end
                else json_error "Failed to fetch voices" 500
            end).
Proof.
  unfold credentials_configured. intros Hcred Hfree.
  unfold get_available_voices. rewrite Hcred, Hfree.
  cbn [orb negb]. unfold try_except, bind. split.
  - intros e He. destruct (get_azure_token cfg s) as [[token|e'] s1]; simpl in *;
      [discriminate|]. by injection He as ->.
  - intros token s1 Hget. rewrite Hget.
    unfold requests_call. case_answer; [|reflexivity].
    case_status; [|reflexivity].
    unfold response_json.
    destruct (json_body response) as [msg|voices]; [reflexivity|].
    unfold ret at 1. unfold lift_result.
    destruct (comprehension voices); reflexivity.
Qed.

(** A refused token; then, the token being cached, a network that is down,
    a refused catalog request, an entry without [Locale] and an entry that
    is [null]. *)
Lemma voices_failures_witness :
  fst (get_available_voices cfg_paid (boot (world_answering 401 0)))
  = Return (json_error "Failed to get Azure token: 401" 500)
  /\ fst (get_available_voices cfg_paid (holding_token 5000 (world_offline 1000)))
     = Return (json_error "connection refused" 500)
  /\ fst (get_available_voices cfg_paid
            (holding_token 5000 (world_answering 503 1000)))
     = Return (json_error "Failed to fetch voices" 500)
  /\ fst (get_available_voices cfg_paid (boot world_with_broken_catalog))
     = Return (json_error "'Locale'" 500)
  /\ fst (get_available_voices cfg_paid (boot world_with_null_entry))
     = Return (json_error "'NoneType' object is not subscriptable" 500).
Proof.
  split; [|split; [|split; [|split]]].
  - rewrite (proj1 (voices_failures cfg_paid (boot (world_answering 401 0))
                      eq_refl eq_refl)
               (Exception "Failed to get Azure token: 401") eq_refl).
    reflexivity.
  - exact (proj2 (voices_failures cfg_paid
                    (holding_token 5000 (world_offline 1000)) eq_refl eq_refl)
             "token-0"
             (snd (get_azure_token cfg_paid
                     (holding_token 5000 (world_offline 1000))))
             eq_refl).
  - exact (proj2 (voices_failures cfg_paid
                    (holding_token 5000 (world_answering 503 1000))
                    eq_refl eq_refl)
             "token-0"
             (snd (get_azure_token cfg_paid
                     (holding_token 5000 (world_answering 503 1000))))
             eq_refl).
  - exact (proj2 (voices_failures cfg_paid (boot world_with_broken_catalog)
                    eq_refl eq_refl)
             "token-1"
             (snd (get_azure_token cfg_paid (boot world_with_broken_catalog)))
             eq_refl).
  - exact (proj2 (voices_failures cfg_paid (boot world_with_null_entry)
                    eq_refl eq_refl)
             "token-1"
             (snd (get_azure_token cfg_paid (boot world_with_null_entry)))
             eq_refl).
Defined.

(** ** The shape of the [audio_data] field *)

Lemma b64_digit_in_alphabet (n : N) : (n < 64)%N -> In (b64_digit n) b64_alphabet.
Proof.
  intros Hn. unfold b64_digit. apply nth_In.
  change (length b64_alphabet) with 64%nat. lia.
Qed.

(** The encoding of [n] bytes has [4 * ceil(n / 3)] characters, each a digit
    of the alphabet or the padding sign, so that decoding it as UTF-8 (line
    164) cannot fail; and different audio gives different text. *)
Theorem b64encode_shape (s : list byte) :
  length (b64encode s) = (4 * ((length s + 2) / 3))%nat
  /\ Forall (fun c => In c b64_alphabet \/ c = b64_pad) (b64encode s)
  /\ forall s', b64encode s' = b64encode s -> s' = s.
Proof.
  split; [|split].
  - induction s as [|a|a b|a b c rest IH] using list_ind3; try reflexivity.
    cbn [b64encode length]. rewrite IH.
    replace (S (S (S (length rest))) + 2)%nat with (length rest + 2 + 1 * 3)%nat by lia.
    rewrite Nat.div_add by lia. lia.
  - pose proof sextet1_bound. pose proof sextet2_bound.
    pose proof sextet3_bound. pose proof sextet4_bound.
    induction s as [|a|a b|a b c rest IH] using list_ind3; cbn [b64encode].
    + constructor.
    + do 2 (constructor; [left; by apply b64_digit_in_alphabet|]).
      do 2 (constructor; [by right|]). constructor.
    + do 3 (constructor; [left; by apply b64_digit_in_alphabet|]).
      constructor; [by right | constructor].
    + do 4 (constructor; [left; by apply b64_digit_in_alphabet|]).
      exact IH.
  - intros s' Heq.
    assert (H : b64decode (b64encode s') = b64decode (b64encode s)) by by rewrite Heq.
    rewrite !b64decode_b64encode in H. by injection H.
Qed.

(** ** [GET /speech] on the paid path *)

Lemma text_to_speech_paid
    (cfg : config) (args : gmap string string) (txt : string) :
  credentials_configured cfg = true -> USE_FREE_TTS cfg = false ->
  args !! "text" = Some txt -> txt <> "" -> (String.length txt <= 1000)%nat ->
  text_to_speech cfg args
  = try_except
      (audio_data <- synthesize_speech_azure cfg txt default_voice ;;
       ret {| body := FileBody audio_data "audio/mpeg" "speech.mp3";
              status := 200 |})
      (fun e => ret (json_error (str_exn e) 500)).
Proof.
  unfold credentials_configured. intros Hcred Hfree Harg Hne Hlen.
  rewrite (text_to_speech_valid cfg args txt (boot (world_offline 0)) Harg Hne Hlen).
  by rewrite Hcred, Hfree.
Qed.

(** With a fresh token cached, a valid paid [GET /speech] sends the
    synthesis request with that token and nothing else. *)
Lemma text_to_speech_with_fresh_token
    (cfg : config) (args : gmap string string) (txt key tok : string) (exp : Z)
    (s : sys) :
  AZURE_SPEECH_KEY cfg = Some key -> key <> "" -> USE_FREE_TTS cfg = false ->
  args !! "text" = Some txt -> txt <> "" -> (String.length txt <= 1000)%nat ->
  azure_token (tts_api s) = Some tok -> tok <> "" ->
  token_expiry (tts_api s) = Some exp ->
  clock (env s) (reads (env s)) < exp ->
  calls_made (text_to_speech cfg args) s = [tts_request cfg tok default_voice txt].
Proof.
  intros Hkey Hk Hfree Harg Hne Hlen Htok Htne Hexp Hlt.
  pose proof (get_azure_token_hit cfg s key tok exp Hkey Hk Htok Htne Hexp Hlt) as Hget.
  pose proof (synthesize_speech_azure_with_token cfg txt default_voice tok s _ Hget)
    as Hsyn.
  cbv zeta in Hsyn. cbn [datetime_now snd env tts_api sent clock reads upstream] in Hsyn.
  pose proof (text_to_speech_state cfg args txt s Harg Hne Hlen) as Hstate.
  rewrite Hkey, Hfree in Hstate. apply truthy_true in Hk.
  cbn [orb negb truthy_opt] in Hstate. rewrite Hk in Hstate. cbn [negb] in Hstate.
  apply calls_made_one. rewrite Hstate, Hsyn.
  case_answer; [|reflexivity]. case_status; reflexivity.
Qed.

(** A paid [GET /speech] that answers audio leaves a token and an expiry in
    the cache, the expiry after the last reading of the clock.  If that
    token is not the empty string and the next request reads the clock
    before the expiry, the next valid [GET /speech] sends one request only,
    the synthesis request with that token: no second token is fetched. *)
Theorem paid_success_leaves_token
    (cfg : config) (args : gmap string string) (txt : string) (s : sys)
    (audio : list byte) (mimetype download_name : string) (code : Z) :
  credentials_configured cfg = true -> USE_FREE_TTS cfg = false ->
  args !! "text" = Some txt -> txt <> "" -> (String.length txt <= 1000)%nat ->
  fst (text_to_speech cfg args s)
  = Return {| body := FileBody audio mimetype download_name; status := code |} ->
  let s' := snd (text_to_speech cfg args s) in
  exists tok exp,
    tts_api s' = {| azure_token := Some tok; token_expiry := Some exp |}
    /\ clock (env s') (Nat.pred (reads (env s'))) < exp
    /\ (tok <> "" -> clock (env s') (reads (env s')) < exp ->
        forall (args' : gmap string string) (txt' : string),
          args' !! "text" = Some txt' -> txt' <> "" ->
          (String.length txt' <= 1000)%nat ->
          calls_made (text_to_speech cfg args') s'
          = [tts_request cfg tok default_voice txt']).
Proof.
  intros Hcred Hfree Harg Hne Hlen Hanswer. cbv zeta.
  assert (Hstate : exists tok exp,
             tts_api (snd (text_to_speech cfg args s))
             = {| azure_token := Some tok; token_expiry := Some exp |}
             /\ clock (env (snd (text_to_speech cfg args s)))
                  (Nat.pred (reads (env (snd (text_to_speech cfg args s))))) < exp).
  { rewrite (text_to_speech_paid cfg args txt Hcred Hfree Harg Hne Hlen) in *.
    unfold try_except at 1 in Hanswer. unfold bind at 1 in Hanswer.
    unfold try_except at 1. unfold bind at 1.
    unfold synthesize_speech_azure, try_except, bind in *.
    destruct (get_azure_token cfg s) as [[tok|e] s1] eqn:Hget;
      [|simpl in Hanswer; discriminate].
    destruct (get_azure_token_success_state cfg s s1 tok Hget)
      as (Htok & exp & Hexp & Hlt).
    unfold requests_call in *.
    destruct (upstream (env s1) _ _) as [response|msg];
      [|simpl in Hanswer; discriminate].
    destruct (status_code response =? 200); [|simpl in Hanswer; discriminate].
    simpl. exists tok, exp. split; [|exact Hlt].
    destruct (tts_api s1) as [t x]. simpl in *. by rewrite Htok, Hexp. }
  destruct Hstate as (tok & exp & Hapi & Hlast).
  exists tok, exp. split; [exact Hapi|]. split; [exact Hlast|].
  intros Htne Hnext args' txt' Harg' Hne' Hlen'.
  unfold credentials_configured in Hcred.
  destruct (AZURE_SPEECH_KEY cfg) as [key|] eqn:Hkey; [|discriminate].
  simpl in Hcred. apply truthy_true in Hcred.
  apply (text_to_speech_with_fresh_token cfg args' txt' key tok exp);
    try assumption; by rewrite Hapi.
Qed.

(** Two paid requests in a row: the first makes two calls, the second
    one. *)
Lemma paid_success_leaves_token_witness :
  calls_made (text_to_speech cfg_paid {[ "text" := "again" ]})
    (snd (text_to_speech cfg_paid {[ "text" := "hello" ]}
            (boot (world_answering 200 1000))))
  = [tts_request cfg_paid "token-1" default_voice "again"].
Proof.
  destruct (paid_success_leaves_token cfg_paid {[ "text" := "hello" ]} "hello"
              (boot (world_answering 200 1000)) riff "audio/mpeg" "speech.mp3" 200)
    as (tok & exp & Hapi & _ & Hnext);
    [reflexivity | reflexivity | reflexivity | discriminate | simpl; lia
    | reflexivity |].
  injection Hapi as <- <-.
  apply Hnext;
    first [ reflexivity | discriminate | vm_compute; reflexivity | simpl; lia ].
Defined.

(** When the synthesis request is refused, the route answers 500 with the
    upstream status behind both prefixes, and the cached token stays: no
    status of the synthesis endpoint, 401 included, makes the module drop
    or refresh the token. *)
Theorem synthesis_refusal_keeps_token
    (cfg : config) (args : gmap string string) (txt key tok : string) (exp : Z)
    (s : sys) (response : http_reply) :
  AZURE_SPEECH_KEY cfg = Some key -> key <> "" -> USE_FREE_TTS cfg = false ->
  args !! "text" = Some txt -> txt <> "" -> (String.length txt <= 1000)%nat ->
  azure_token (tts_api s) = Some tok -> tok <> "" ->
  token_expiry (tts_api s) = Some exp ->
  clock (env s) (reads (env s)) < exp ->
  upstream (env s) (length (sent (env s))) (tts_request cfg tok default_voice txt)
    = Answered response ->
  status_code response <> 200 ->
  fst (text_to_speech cfg args s)
  = Return (json_error ("Azure synthesis failed: Azure API error: "
                        ++ str_int (status_code response)) 500)
  /\ tts_api (snd (text_to_speech cfg args s)) = tts_api s.
Proof.
  intros Hkey Hk Hfree Harg Hne Hlen Htok Htne Hexp Hlt Hans Hcode.
  assert (Hcred : credentials_configured cfg = true).
  { unfold credentials_configured. rewrite Hkey. by apply truthy_true. }
  rewrite (text_to_speech_paid cfg args txt Hcred Hfree Harg Hne Hlen).
  pose proof (get_azure_token_hit cfg s key tok exp Hkey Hk Htok Htne Hexp Hlt) as Hget.
  pose proof (synthesize_speech_azure_with_token cfg txt default_voice tok s _ Hget)
    as Hsyn.
  simpl in Hsyn. rewrite Hans in Hsyn.
  apply Z.eqb_neq in Hcode. rewrite Hcode in Hsyn.
  split; unfold try_except at 1; unfold bind at 1; rewrite Hsyn; reflexivity.
Qed.

Lemma synthesis_refusal_keeps_token_witness :
  fst (text_to_speech cfg_paid {[ "text" := "hello" ]}
         (holding_token 5000 (world_answering 401 1000)))
  = Return (json_error "Azure synthesis failed: Azure API error: 401" 500)
  /\ tts_api (snd (text_to_speech cfg_paid {[ "text" := "hello" ]}
                     (holding_token 5000 (world_answering 401 1000))))
     = {| azure_token := Some "token-0"; token_expiry := Some 5000 |}.
Proof.
  apply (synthesis_refusal_keeps_token cfg_paid {[ "text" := "hello" ]} "hello"
           "secret" "token-0" 5000 (holding_token 5000 (world_answering 401 1000))
           (reply_with 401));
    first [ reflexivity | discriminate | simpl; lia ].
Defined.
